(** * Invariant-test registry, cluster-info serializer and kubeconfig builder

    A shallow embedding of three Go files of openshift/origin:

    - [pkg/invariants/types.go]: the [InvariantTest] and [InvariantRegistry]
      interfaces;
    - [pkg/invariants/clusterinfo_serializer/invariant.go]: one observer;
    - [test/extended/util/oc_copy.go]: the kubeconfig record builder.

    Go maps are [gmap]s keyed by [string]; a Go [error] result is an
    [option] whose [None] is [nil]; a nil slice is the empty list. *)

From stdpp Require Import gmap strings list fin_maps.
From Stdlib Require Import Ascii String.

Open Scope string_scope.

(** ** pkg/invariants/types.go *)

Module Invariants.

(** The Go types that occur in the method signatures of the package. *)
Inductive GoType :=
| TContext          (* context.Context *)
| TRestConfigPtr    (* *rest.Config *)
| TRecorderWriter   (* monitorapi.RecorderWriter *)
| TString           (* string *)
| TTime             (* time.Time *)
| TIntervals        (* monitorapi.Intervals *)
| TJUnitTestCases   (* []*junitapi.JUnitTestCase *)
| TResourcesMap     (* monitorapi.ResourcesMap *)
| TClusterData      (* platformidentification.ClusterData *)
| TError.           (* error *)

#[export] Instance GoType_eq_dec : EqDecision GoType.
Proof. solve_decision. Defined.

(** A method signature: parameter types and result types, in order.
    Parameter names play no role in Go's interface satisfaction. *)
Record MethodSig := mkSig { params : list GoType; results : list GoType }.

#[export] Instance MethodSig_eq_dec : EqDecision MethodSig.
Proof. solve_decision. Defined.

(** A method set: method name and signature. *)
Definition MethodSet := list (string * MethodSig).

(** [type InvariantTest interface { ... }], types.go lines 13-49. *)
Definition InvariantTest : MethodSet :=
  [ ("StartCollection",
     mkSig [TContext; TRestConfigPtr; TRecorderWriter] [TError]);
    ("CollectData",
     mkSig [TContext; TString; TTime; TTime]
           [TIntervals; TJUnitTestCases; TError]);
    ("ConstructComputedIntervals",
     mkSig [TContext; TIntervals; TResourcesMap; TTime; TTime]
           [TIntervals; TError]);
    ("EvaluateTestsFromConstructedIntervals",
     mkSig [TContext; TIntervals] [TJUnitTestCases; TError]);
    ("WriteContentToStorage",
     mkSig [TContext; TString; TString; TIntervals; TResourcesMap] [TError]);
    ("Cleanup", mkSig [TContext] [TError]) ].

(** Go's rule for a concrete type to satisfy an interface: every method of
    the interface is in the type's method set with the identical signature. *)
Definition implements (T I : MethodSet) : bool :=
  forallb (fun m => bool_decide (m ∈ T)) I.

(** The signature a method set gives to a method name, if any. *)
Definition method (T : MethodSet) (name : string) : option MethodSig :=
  (list_to_map T : gmap string MethodSig) !! name.

(** The six phase methods of [type InvariantRegistry interface { ... }],
    types.go lines 60-92.  (The interface has four more methods, for
    building the registry, whose types are outside [GoType].) *)
Definition InvariantRegistry_phases : MethodSet :=
  [ ("StartCollection",
     mkSig [TContext; TRestConfigPtr; TRecorderWriter] [TJUnitTestCases; TError]);
    ("CollectData",
     mkSig [TContext; TString; TTime; TTime]
           [TIntervals; TJUnitTestCases; TError]);
    ("ConstructComputedIntervals",
     mkSig [TContext; TIntervals; TResourcesMap; TTime; TTime]
           [TIntervals; TJUnitTestCases; TError]);
    ("EvaluateTestsFromConstructedIntervals",
     mkSig [TContext; TIntervals] [TJUnitTestCases; TError]);
    ("WriteContentToStorage",
     mkSig [TContext; TString; TString; TIntervals; TResourcesMap]
           [TJUnitTestCases; TError]);
    ("Cleanup", mkSig [TContext] [TJUnitTestCases; TError]) ].

(** A result list without its JUnit test cases. *)
Definition withoutJUnits (results : list GoType) : list GoType :=
  filter (fun t => t <> TJUnitTestCases) results.

(** *** The registry

    types.go declares [InvariantRegistry] only; the struct behind it is in a
    file that is not part of the sources at hand. *)

Inductive RegistryError :=
| DuplicateNameError (name : string).

#[export] Instance RegistryError_eq_dec : EqDecision RegistryError.
Proof. solve_decision. Defined.

(** A call that either returns or dies: the [...OrDie] methods of the
    interface have no result, their failure is fatal. *)
Inductive outcome (A : Type) :=
| Done (a : A)
| Died (e : RegistryError).
Arguments Done {A} a.
Arguments Died {A} e.

Section Registry.
Context {Observer : Type}.

(** Modelled from the spec: the value type [invariantItem] of the map that
    [getInvariantTests] returns; its declaration is missing.  The spec's
    Observer Registration is "{unique name, ownership tag, observer
    instance}"; the unique name is the key of the map. *)
Record invariantItem := mkItem {
  jiraComponent : string;
  invariantTest : Observer;
}.

(** Modelled from the spec: [AddInvariant], the spec's [register]; the
    method body is missing.  "fails with DuplicateNameError if name already
    present at this level; otherwise stores the binding and succeeds". *)
Definition AddInvariant (r : gmap string invariantItem)
    (name jira : string) (obs : Observer)
  : gmap string invariantItem * option RegistryError :=
  match r !! name with
  | Some _ => (r, Some (DuplicateNameError name))
  | None => (<[name := mkItem jira obs]> r, None)
  end.

(** Modelled from the spec: [AddInvariantOrDie]; the method body is missing.
    A registration error is "a fatal configuration error at startup". *)
Definition AddInvariantOrDie (r : gmap string invariantItem)
    (name jira : string) (obs : Observer)
  : outcome (gmap string invariantItem) :=
  match AddInvariant r name jira obs with
  | (r', None) => Done r'
  | (_, Some e) => Died e
  end.

(** Modelled from the spec: [AddRegistryOrDie], the spec's
    [composeSubRegistry]; the method body is missing.  "merges all of the
    child's entries into this registry's namespace; fails with
    DuplicateNameError on any name collision across the union": every entry
    of the child is registered in the parent, in the iteration order of the
    child's map, and the first failure is fatal. *)
Definition AddRegistryOrDie (parent child : gmap string invariantItem)
  : outcome (gmap string invariantItem) :=
  map_fold
    (fun name item acc =>
       match acc with
       | Done r => AddInvariantOrDie r name (jiraComponent item) (invariantTest item)
       | Died e => Died e
       end)
    (Done parent) child.

(** The state of the composition after any part [m] of the child has been
    registered: the union while no name collided, dead on a shared name
    otherwise. *)
Definition composed (parent : gmap string invariantItem)
    (acc : outcome (gmap string invariantItem))
    (m : gmap string invariantItem) : Prop :=
  match acc with
  | Done r => parent ##ₘ m /\ r = parent ∪ m
  | Died e =>
      exists name, e = DuplicateNameError name /\
                   is_Some (parent !! name) /\ is_Some (m !! name)
  end.

(** Modelled from the spec: [allObservers], "a flattened, deterministic
    ordered sequence of (name, ownershipTag, observer) triples". *)
Definition allObservers (r : gmap string invariantItem)
  : list (string * string * Observer) :=
  (fun kv => (kv.1, jiraComponent kv.2, invariantTest kv.2)) <$> map_to_list r.

(** The phases of the observer contract, in their fixed order. *)
Inductive Phase :=
| PStartCollection
| PCollectData
| PConstructComputedIntervals
| PEvaluateTestsFromConstructedIntervals
| PWriteContentToStorage
| PCleanup.

Definition phases : list Phase :=
  [ PStartCollection; PCollectData; PConstructComputedIntervals;
    PEvaluateTestsFromConstructedIntervals; PWriteContentToStorage; PCleanup ].

(** Modelled from the spec: the phase invocations of one execution; the
    orchestrator is missing.  "Configuration errors (duplicate observer
    name): fatal, raised before any phase begins; stop the whole execution";
    otherwise every phase is attempted for every registered observer, phase
    by phase. *)
Definition phaseCalls (construction : outcome (gmap string invariantItem))
  : outcome (list (Phase * string)) :=
  match construction with
  | Died e => Died e
  | Done r =>
      Done (p ← phases; o ← allObservers r; [(p, o.1.1)])
  end.

End Registry.

Arguments invariantItem : clear implicits.

End Invariants.

(** ** The Go [error] interface

    Any value with an [Error() string] method.  The concrete error types
    come from libraries outside the repository, so the type is a parameter. *)

Class GoError := {
  error : Type;
  error_Error : error -> string;
}.

(** ** pkg/invariants/clusterinfo_serializer/invariant.go *)

Module ClusterInfoSerializer.

(** What the package imports from outside the three files: the data types
    of the monitor, and the functions [WriteContentToStorage] calls.  [World]
    stands for the cluster and the file system the calls act on. *)
Class Collaborators `{GoError} := {
  context_Context : Type;
  rest_Config : Type;
  RecorderWriter : Type;
  time_Time : Type;
  Interval : Type;                      (* element of monitorapi.Intervals *)
  JUnitTestCase : Type;
  ResourcesMap : Type;
  ClusterData : Type;
  World : Type;
  monitor_WasMasterNodeUpdated : list Interval -> string;
  monitor_CollectClusterData : World -> option rest_Config -> string -> ClusterData;
  json_MarshalIndent : ClusterData -> string -> string -> list Byte.byte + error;
  ioutil_WriteFile : string -> list Byte.byte -> N -> World -> World * option error;
  filepath_Join : string -> string -> string;
}.

(** The method set of [*clusterInfoSerializer] as the file declares it
    (lines 28-56 and 66), read off the [func] headers. *)
Definition methods : Invariants.MethodSet :=
  let sig := Invariants.mkSig in
  [ ("StartCollection",
     sig [Invariants.TContext; Invariants.TRestConfigPtr; Invariants.TRecorderWriter]
         [Invariants.TError]);
    ("CollectData",
     sig [Invariants.TContext; Invariants.TTime; Invariants.TTime]
         [Invariants.TIntervals; Invariants.TJUnitTestCases; Invariants.TError]);
    ("ConstructComputedIntervals",
     sig [Invariants.TContext; Invariants.TIntervals; Invariants.TResourcesMap;
          Invariants.TTime; Invariants.TTime]
         [Invariants.TIntervals; Invariants.TError]);
    ("EvaluateTestsFromConstructedIntervals",
     sig [Invariants.TContext; Invariants.TIntervals]
         [Invariants.TJUnitTestCases; Invariants.TError]);
    ("WriteContentToStorage",
     sig [Invariants.TContext; Invariants.TString; Invariants.TString;
          Invariants.TIntervals; Invariants.TResourcesMap]
         [Invariants.TError]);
    ("Cleanup", sig [Invariants.TContext] [Invariants.TError]);
    ("collectClusterData", sig [Invariants.TString] [Invariants.TClusterData]) ].

Section Serializer.
Context `{Collaborators}.

(** [type clusterInfoSerializer struct { adminRESTConfig *rest.Config }];
    the pointer is [None] when nil. *)
Record clusterInfoSerializer := mkSerializer {
  adminRESTConfig : option rest_Config;
}.

(** [NewClusterInfoSerializer] returns [&clusterInfoSerializer{}]. *)
Definition NewClusterInfoSerializer : clusterInfoSerializer :=
  {| adminRESTConfig := None |}.

(** Every method has a pointer receiver: it takes the observer's state and
    gives it back next to its results. *)

Definition StartCollection (w : clusterInfoSerializer) (ctx : context_Context)
    (adminRESTConfig : option rest_Config) (recorder : RecorderWriter)
  : clusterInfoSerializer * option error :=
  ({| adminRESTConfig := adminRESTConfig |}, None).

Definition CollectData (w : clusterInfoSerializer) (ctx : context_Context)
    (beginning end_ : time_Time)
  : clusterInfoSerializer * (list Interval * list JUnitTestCase * option error) :=
  (w, ([], [], None)).

Definition ConstructComputedIntervals (w : clusterInfoSerializer)
    (ctx : context_Context) (startingIntervals : list Interval)
    (recordedResources : ResourcesMap) (beginning end_ : time_Time)
  : clusterInfoSerializer * (list Interval * option error) :=
  (w, ([], None)).

Definition EvaluateTestsFromConstructedIntervals (w : clusterInfoSerializer)
    (ctx : context_Context) (finalIntervals : list Interval)
  : clusterInfoSerializer * (list JUnitTestCase * option error) :=
  (w, ([], None)).

Definition writeClusterData (filename : string) (clusterData : ClusterData)
    (fs : World) : World * option error :=
  match json_MarshalIndent clusterData "" "    " with
  | inr err => (fs, Some err)
  | inl jsonContent => ioutil_WriteFile filename jsonContent 420 (* 0644 *) fs
  end.

Definition collectClusterData (w : clusterInfoSerializer) (cluster : World)
    (masterNodeUpdated : string) : ClusterData :=
  monitor_CollectClusterData cluster (adminRESTConfig w) masterNodeUpdated.

Definition WriteContentToStorage (w : clusterInfoSerializer)
    (ctx : context_Context) (storageDir timeSuffix : string)
    (finalIntervals : list Interval) (finalResourceState : ResourcesMap)
    (world : World)
  : clusterInfoSerializer * (World * option error) :=
  (w, writeClusterData
        (filepath_Join storageDir ("cluster-data" +:+ timeSuffix +:+ ".json"))
        (collectClusterData w world (monitor_WasMasterNodeUpdated finalIntervals))
        world).

Definition Cleanup (w : clusterInfoSerializer) (ctx : context_Context)
  : clusterInfoSerializer * option error :=
  (w, None).

(** Consecutive [Cleanup] invocations, one per context given: the final
    state and the error of each invocation, in order. *)
Fixpoint cleanups (w : clusterInfoSerializer) (ctxs : list context_Context)
  : clusterInfoSerializer * list (option error) :=
  match ctxs with
  | [] => (w, [])
  | ctx :: rest =>
      let '(w1, err) := Cleanup w ctx in
      let '(w2, errs) := cleanups w1 rest in
      (w2, err :: errs)
  end.

(** One invocation of a method of the observer, with its arguments. *)
Inductive Call :=
| CallStartCollection (ctx : context_Context)
    (adminRESTConfig : option rest_Config) (recorder : RecorderWriter)
| CallCollectData (ctx : context_Context) (beginning end_ : time_Time)
| CallConstructComputedIntervals (ctx : context_Context)
    (startingIntervals : list Interval) (recordedResources : ResourcesMap)
    (beginning end_ : time_Time)
| CallEvaluateTestsFromConstructedIntervals (ctx : context_Context)
    (finalIntervals : list Interval)
| CallWriteContentToStorage (ctx : context_Context)
    (storageDir timeSuffix : string) (finalIntervals : list Interval)
    (finalResourceState : ResourcesMap)
| CallCleanup (ctx : context_Context).

(** The observer and the world after one invocation; the results of the
    invocation are dropped. *)
Definition invoke (call : Call) (s : clusterInfoSerializer * World)
  : clusterInfoSerializer * World :=
  let '(w, world) := s in
  match call with
  | CallStartCollection ctx cfg recorder =>
      ((StartCollection w ctx cfg recorder).1, world)
  | CallCollectData ctx beginning end_ =>
      ((CollectData w ctx beginning end_).1, world)
  | CallConstructComputedIntervals ctx starting resources beginning end_ =>
      ((ConstructComputedIntervals w ctx starting resources beginning end_).1, world)
  | CallEvaluateTestsFromConstructedIntervals ctx final =>
      ((EvaluateTestsFromConstructedIntervals w ctx final).1, world)
  | CallWriteContentToStorage ctx storageDir timeSuffix final resources =>
      let '(w1, (world1, _)) :=
        WriteContentToStorage w ctx storageDir timeSuffix final resources world in
      (w1, world1)
  | CallCleanup ctx => ((Cleanup w ctx).1, world)
  end.

(** Invocations one after the other, first to last. *)
Fixpoint invokeAll (calls : list Call) (s : clusterInfoSerializer * World)
  : clusterInfoSerializer * World :=
  match calls with
  | [] => s
  | call :: rest => invokeAll rest (invoke call s)
  end.

(** The configuration given to the last [StartCollection] among [calls]. *)
Fixpoint lastStarted (calls : list Call) : option (option rest_Config) :=
  match calls with
  | [] => None
  | call :: rest =>
      match lastStarted rest with
      | Some cfg => Some cfg
      | None =>
          match call with
          | CallStartCollection _ cfg _ => Some cfg
          | _ => None
          end
      end
  end.

End Serializer.

End ClusterInfoSerializer.

(** ** Go's [strings] package, as far as oc_copy.go uses it *)

(** [strings.Contains(s, substr)]. *)
Fixpoint strings_Contains (s substr : string) : bool :=
  String.prefix substr s ||
  match s with
  | EmptyString => false
  | String _ s' => strings_Contains s' substr
  end.

(** The scan of [strings.Replace]: [skip] counts the bytes of the current
    occurrence of [old] still to be dropped. *)
Fixpoint replace_scan (old new : string) (skip : nat) (s : string) : string :=
  match s with
  | EmptyString => EmptyString
  | String c s' =>
      match skip with
      | S k => replace_scan old new k s'
      | O =>
          if String.prefix old s
          then new +:+ replace_scan old new (String.length old - 1) s'
          else String c (replace_scan old new 0 s')
      end
  end.

(** [strings.Replace(s, old, new, -1)] for a non-empty [old]: every
    non-overlapping occurrence of [old], from the left, becomes [new]. *)
Definition strings_Replace (s old new : string) : string :=
  replace_scan old new 0 s.

(** "with .'s replaced by -'s", read character by character: the string
    in which every ['.'] has become ['-'] and nothing else has changed. *)
Fixpoint everyDotReplaced (s : string) : string :=
  match s with
  | EmptyString => EmptyString
  | String c s' =>
      String (if Ascii.eqb c "." then "-"%char else c) (everyDotReplaced s')
  end.

(** ** test/extended/util/oc_copy.go *)

(** [k8s.io/client-go/rest]: the fields of [rest.Config] the file reads.
    [TLSClientConfig] is embedded in [Config], so [clientCfg.CAFile] is
    [clientCfg.TLSClientConfig.CAFile]. *)
Module restclient.

Record TLSClientConfig := {
  Insecure : bool;
  CertFile : string;
  KeyFile : string;
  CAFile : string;
  CertData : list Byte.byte;
  KeyData : list Byte.byte;
  CAData : list Byte.byte;
}.

Record Config := {
  Host : string;
  Username : string;
  BearerToken : string;
  TLS : TLSClientConfig;      (* the embedded TLSClientConfig *)
}.

End restclient.

(** [k8s.io/client-go/tools/clientcmd/api]: the kubeconfig record, with
    the fields [createConfig] assigns.  The constructors give every field
    its zero value and every map empty. *)
Module clientcmdapi.

Record AuthInfo := {
  ClientCertificate : string;
  ClientCertificateData : list Byte.byte;
  ClientKey : string;
  ClientKeyData : list Byte.byte;
  Token : string;
}.

Record Cluster := {
  Server : string;
  InsecureSkipTLSVerify : bool;
  CertificateAuthority : string;
  CertificateAuthorityData : list Byte.byte;
}.

Record Context := {
  Context_Cluster : string;       (* Context.Cluster *)
  Context_AuthInfo : string;      (* Context.AuthInfo *)
  Namespace : string;
}.

Record Config := {
  Clusters : gmap string Cluster;
  AuthInfos : gmap string AuthInfo;
  Contexts : gmap string Context;
  CurrentContext : string;
}.

Definition NewAuthInfo : AuthInfo :=
  {| ClientCertificate := ""; ClientCertificateData := [];
     ClientKey := ""; ClientKeyData := []; Token := "" |}.

Definition NewCluster : Cluster :=
  {| Server := ""; InsecureSkipTLSVerify := false;
     CertificateAuthority := ""; CertificateAuthorityData := [] |}.

Definition NewContext : Context :=
  {| Context_Cluster := ""; Context_AuthInfo := ""; Namespace := "" |}.

Definition NewConfig : Config :=
  {| Clusters := ∅; AuthInfos := ∅; Contexts := ∅; CurrentContext := "" |}.

End clientcmdapi.

Module Util.

(** [userv1.User], with the one field the file reads and writes. *)
Record User := { Name : string }.

(** What [userClient.Users().Get(ctx, "~", ...)] returns: the generated
    client always returns a non-nil object, next to the error if any. *)
Definition GetResult `{GoError} : Type := User * option error.

(** The libraries behind oc_copy.go.  Real time is not modelled:
    [pollRetries] is the number of further attempts that the poll's
    one-second interval fits into its one-minute timeout, after the
    immediate first one.  The construction of the user client loads the
    certificate files that the configuration names: an instance stands for
    the libraries on one state of the disk. *)
Class Libraries `{GoError} := {
  url_URL : Type;
  url_Parse : string -> url_URL + error;
  netutil_CanonicalAddr : url_URL -> string;
  userv1typedclient_NewForConfig : restclient.Config -> option error;
  kerrors_IsNotFound : error -> bool;
  kerrors_IsForbidden : error -> bool;
  context_DeadlineExceeded : error;
  pollRetries : nat;
}.

(** A [kerrors] predicate applied to an [error] value that may be nil:
    every one of them is false on nil. *)
Definition onError `{GoError} (holds : error -> bool) (err : option error) : bool :=
  from_option holds false err.

(** How a call ends without a value: a returned error, or the panic of a
    nil pointer dereference. *)
Inductive failure `{GoError} :=
| Err (err : error)
| NilDereference.

Section OcCopy.
Context `{Libraries}.

(** The API server, as the program sees it: the answer to the [k]-th
    [Get] of the user ["~"], for every [k]. *)
Definition Server : Type := nat -> GetResult.

Definition getClusterNicknameFromConfig (clientCfg : restclient.Config)
  : string + failure :=
  match url_Parse (restclient.Host clientCfg) with
  | inr err => inr (Err err)
  | inl u =>
      let hostPort := netutil_CanonicalAddr u in
      inl (strings_Replace hostPort "." "-")
  end.

(** [wait.PollUntilContextTimeout(context.Background(), interval, timeout,
    true, condition)]: with [immediate] set the condition runs once at
    least; it runs again at each tick until it is done or fails, and the
    expired deadline is reported as [context.DeadlineExceeded]. *)
Fixpoint PollUntilContextTimeout {S : Type} (retries : nat)
    (condition : S -> S * (bool * option error)) (s : S)
  : S * option error :=
  let '(s1, (ok, err)) := condition s in
  if bool_decide (is_Some err) || ok then (s1, err)
  else
    match retries with
    | O => (s1, Some context_DeadlineExceeded)
    | S k => PollUntilContextTimeout k condition s1
    end.

(** The condition closure of [getUserPartOfNickname] (lines 56-62).  It
    assigns the captured variable [userInfo] and issues one [Get]: its state
    is that variable and the number of [Get]s issued so far. *)
Definition pollCondition (server : Server) (s : option User * nat)
  : (option User * nat) * (bool * option error) :=
  let '(userInfo, err) := server s.2 in
  let s1 := (Some userInfo, S s.2) in
  match err with
  | Some e =>
      if strings_Contains (error_Error e) "connect: connection refused"
      then (s1, (false, None))
      else (s1, (true, err))
  | None => (s1, (true, err))
  end.

Definition getUserPartOfNickname (server : Server)
    (clientCfg : restclient.Config) (gets : nat)
  : (string + failure) * nat :=
  match userv1typedclient_NewForConfig clientCfg with
  | Some err => (inr (Err err), gets)
  | None =>
      let '((userInfo, gets1), err) :=
        PollUntilContextTimeout pollRetries (pollCondition server) (None, gets) in
      if onError kerrors_IsNotFound err || onError kerrors_IsForbidden err then
        match userInfo with
        | None => (inr NilDereference, gets1)
        | Some u =>
            let u1 :=
              if Nat.ltb 0 (String.length (restclient.BearerToken clientCfg))
              then {| Name := restclient.BearerToken clientCfg |}
              else if Nat.ltb 0 (String.length (restclient.Username clientCfg))
              then {| Name := restclient.Username clientCfg |}
              else u in
            (inl (Name u1), gets1)
        end
      else
        match err with
        | Some e => (inr (Err e), gets1)
        | None =>
            match userInfo with
            | None => (inr NilDereference, gets1)
            | Some u => (inl (Name u), gets1)
            end
        end
  end.

Definition getUserNicknameFromConfig (server : Server)
    (clientCfg : restclient.Config) (gets : nat)
  : (string + failure) * nat :=
  match getUserPartOfNickname server clientCfg gets with
  | (inr err, gets1) => (inr err, gets1)
  | (inl userPartOfNick, gets1) =>
      match getClusterNicknameFromConfig clientCfg with
      | inr err => (inr err, gets1)
      | inl clusterNick => (inl (userPartOfNick +:+ "/" +:+ clusterNick), gets1)
      end
  end.

Definition getContextNicknameFromConfig (server : Server) (namespace : string)
    (clientCfg : restclient.Config) (gets : nat)
  : (string + failure) * nat :=
  match getUserPartOfNickname server clientCfg gets with
  | (inr err, gets1) => (inr err, gets1)
  | (inl userPartOfNick, gets1) =>
      match getClusterNicknameFromConfig clientCfg with
      | inr err => (inr err, gets1)
      | inl clusterNick =>
          (inl (namespace +:+ "/" +:+ clusterNick +:+ "/" +:+ userPartOfNick), gets1)
      end
  end.

(** The three assignment blocks of [createConfig] (lines 114-140). *)

Definition credentialsOf (clientCfg : restclient.Config) : clientcmdapi.AuthInfo :=
  let tls := restclient.TLS clientCfg in
  let credentials := clientcmdapi.NewAuthInfo in
  {| clientcmdapi.Token := restclient.BearerToken clientCfg;
     clientcmdapi.ClientCertificate := restclient.CertFile tls;
     clientcmdapi.ClientCertificateData :=
       if Nat.eqb (String.length (restclient.CertFile tls)) 0
       then restclient.CertData tls
       else clientcmdapi.ClientCertificateData credentials;
     clientcmdapi.ClientKey := restclient.KeyFile tls;
     clientcmdapi.ClientKeyData :=
       if Nat.eqb (String.length (restclient.KeyFile tls)) 0
       then restclient.KeyData tls
       else clientcmdapi.ClientKeyData credentials |}.

Definition clusterOf (clientCfg : restclient.Config) : clientcmdapi.Cluster :=
  let tls := restclient.TLS clientCfg in
  let cluster := clientcmdapi.NewCluster in
  {| clientcmdapi.Server := restclient.Host clientCfg;
     clientcmdapi.CertificateAuthority := restclient.CAFile tls;
     clientcmdapi.CertificateAuthorityData :=
       if Nat.eqb (String.length (restclient.CAFile tls)) 0
       then restclient.CAData tls
       else clientcmdapi.CertificateAuthorityData cluster;
     clientcmdapi.InsecureSkipTLSVerify := restclient.Insecure tls |}.

Definition contextOf (clusterNick userNick namespace : string)
  : clientcmdapi.Context :=
  {| clientcmdapi.Context_Cluster := clusterNick;
     clientcmdapi.Context_AuthInfo := userNick;
     clientcmdapi.Namespace := namespace |}.

Definition createConfig (server : Server) (namespace : string)
    (clientCfg : restclient.Config) (gets : nat)
  : (clientcmdapi.Config + failure) * nat :=
  match getClusterNicknameFromConfig clientCfg with
  | inr err => (inr err, gets)
  | inl clusterNick =>
  match getUserNicknameFromConfig server clientCfg gets with
  | (inr err, gets1) => (inr err, gets1)
  | (inl userNick, gets1) =>
  match getContextNicknameFromConfig server namespace clientCfg gets1 with
  | (inr err, gets2) => (inr err, gets2)
  | (inl contextNick, gets2) =>
      let config := clientcmdapi.NewConfig in
      (inl
         {| clientcmdapi.AuthInfos :=
              <[userNick := credentialsOf clientCfg]> (clientcmdapi.AuthInfos config);
            clientcmdapi.Clusters :=
              <[clusterNick := clusterOf clientCfg]> (clientcmdapi.Clusters config);
            clientcmdapi.Contexts :=
              <[contextNick := contextOf clusterNick userNick namespace]>
                (clientcmdapi.Contexts config);
            clientcmdapi.CurrentContext := contextNick |},
       gets2)
  end end end.

(** The [k]-th lookup is refused: its error message is the one the poll
    condition retries on. *)
Definition refusedAt (server : Server) (k : nat) : Prop :=
  exists u e, server k = (u, Some e) /\
              strings_Contains (error_Error e) "connect: connection refused" = true.

(** The error of an answer, if any, is not one the poll condition retries
    on. *)
Definition final (err : option error) : Prop :=
  forall e, err = Some e ->
            strings_Contains (error_Error e) "connect: connection refused" = false.

End OcCopy.

End Util.

(** ** A small instance of the libraries

    Stand-ins for the collaborators, to run the functions above on concrete
    inputs: errors are a message with the two status flags the code tests;
    a URL is a scheme and a host; the world is the files written so far.
    The stand-ins are meant to agree with the libraries on the inputs used
    below. *)

Module Sample.

Record sampleError := mkError {
  message : string;
  notFound : bool;
  forbidden : bool;
}.

#[export] Instance goError : GoError :=
  {| error := sampleError; error_Error := message |}.

Definition writeFile (name : string) (content : list Byte.byte) (perm : N)
    (files : gmap string (list Byte.byte))
  : gmap string (list Byte.byte) * option sampleError :=
  if bool_decide (name = "")
  then (files, Some (mkError "open : no such file or directory" false false))
  else (<[name := content]> files, None).

Definition marshal (data : option string) (prefix indent : string)
  : list Byte.byte + sampleError :=
  match data with
  | Some text => inl (list_byte_of_string text)
  | None => inr (mkError "json: unsupported value" false false)
  end.

#[export] Instance collaborators : ClusterInfoSerializer.Collaborators :=
  {| ClusterInfoSerializer.context_Context := unit;
     ClusterInfoSerializer.rest_Config := string;
     ClusterInfoSerializer.RecorderWriter := unit;
     ClusterInfoSerializer.time_Time := nat;
     ClusterInfoSerializer.Interval := nat * nat;
     ClusterInfoSerializer.JUnitTestCase := string;
     ClusterInfoSerializer.ResourcesMap := unit;
     ClusterInfoSerializer.ClusterData := option string;
     ClusterInfoSerializer.World := gmap string (list Byte.byte);
     ClusterInfoSerializer.monitor_WasMasterNodeUpdated :=
       fun intervals => match intervals with [] => "N" | _ => "Y" end;
     ClusterInfoSerializer.monitor_CollectClusterData :=
       fun _ cfg updated => (fun host => host +:+ " " +:+ updated) <$> cfg;
     ClusterInfoSerializer.json_MarshalIndent := marshal;
     ClusterInfoSerializer.ioutil_WriteFile := writeFile;
     ClusterInfoSerializer.filepath_Join :=
       fun dir file => dir +:+ "/" +:+ file |}.

(** *** A stand-in for [url.Parse]

    It follows the parser of Go's [net/url] on URLs written with lower-case
    letters, digits and the characters [. : / -] only, and keeps the scheme
    and the host of the result; any other character is refused, since
    escapes, user information, IPv6 literals, queries and fragments are not
    reproduced. *)

Definition isLetter (c : ascii) : bool :=
  let n := nat_of_ascii c in
  (Nat.leb 97 n && Nat.leb n 122) || (Nat.leb 65 n && Nat.leb n 90).

Definition isDigit (c : ascii) : bool :=
  let n := nat_of_ascii c in Nat.leb 48 n && Nat.leb n 57.

Definition inAlphabet (c : ascii) : bool :=
  let n := nat_of_ascii c in
  (Nat.leb 97 n && Nat.leb n 122) || isDigit c ||
  Ascii.eqb c "." || Ascii.eqb c ":" || Ascii.eqb c "/" || Ascii.eqb c "-".

Fixpoint allInAlphabet (s : string) : bool :=
  match s with
  | EmptyString => true
  | String c s' => inAlphabet c && allInAlphabet s'
  end.

(** [getScheme]: the scheme and what follows its colon, [None] when the
    text has no scheme, an error when it starts with the colon. *)
Fixpoint getScheme (first : bool) (s : string) : option (string * string) + unit :=
  match s with
  | EmptyString => inl None
  | String c s' =>
      let continue :=
        match getScheme false s' with
        | inl (Some (scheme, rest)) => inl (Some (String c scheme, rest))
        | other => other
        end in
      if isLetter c then continue
      else if isDigit c || Ascii.eqb c "+" || Ascii.eqb c "-" || Ascii.eqb c "."
      then (if first then inl None else continue)
      else if Ascii.eqb c ":"
      then (if first then inr tt else inl (Some (EmptyString, s')))
      else inl None
  end.

Fixpoint upToSlash (s : string) : string :=
  match s with
  | EmptyString => EmptyString
  | String c s' => if Ascii.eqb c "/" then EmptyString else String c (upToSlash s')
  end.

(** The text from the last colon on ([host[i:]] for the last index [i] of a
    colon), if there is a colon. *)
Fixpoint fromLastColon (s : string) : option string :=
  match s with
  | EmptyString => None
  | String c s' =>
      match fromLastColon s' with
      | Some port => Some port
      | None => if Ascii.eqb c ":" then Some s else None
      end
  end.

Fixpoint allDigits (s : string) : bool :=
  match s with
  | EmptyString => true
  | String c s' => isDigit c && allDigits s'
  end.

Definition validOptionalPort (port : string) : bool :=
  match port with
  | EmptyString => true
  | String c digits => Ascii.eqb c ":" && allDigits digits
  end.

Definition quoted (s : string) : string :=
  let quote := String (ascii_of_nat 34) EmptyString in quote +:+ s +:+ quote.

Definition parseError (rawURL reason : string) : sampleError :=
  mkError ("parse " +:+ quoted rawURL +:+ ": " +:+ reason) false false.

Definition parse (rawURL : string) : (string * string) + sampleError :=
  if negb (allInAlphabet rawURL)
  then inr (parseError rawURL "character outside the alphabet of the stand-in")
  else
    match getScheme true rawURL with
    | inr _ => inr (parseError rawURL "missing protocol scheme")
    | inl found =>
        let '(scheme, rest) := default (EmptyString, rawURL) found in
        let hasScheme := negb (String.eqb scheme EmptyString) in
        if negb (String.prefix "/" rest) then
          if hasScheme then inl (scheme, EmptyString)          (* opaque *)
          else if strings_Contains (upToSlash rest) ":"
          then inr (parseError rawURL
                      "first path segment in URL cannot contain colon")
          else inl (scheme, EmptyString)                       (* a path *)
        else if (hasScheme || negb (String.prefix "///" rest))
                && String.prefix "//" rest then
          let authority :=
            upToSlash (String.substring 2 (String.length rest - 2) rest) in
          let colonPort := default EmptyString (fromLastColon authority) in
          if validOptionalPort colonPort then inl (scheme, authority)
          else inr (parseError rawURL
                      ("invalid port " +:+ quoted colonPort +:+ " after host"))
        else inl (scheme, EmptyString)                         (* a path *)
    end.

(** [netutil.CanonicalAddr]: the host, with the port of the scheme (80 for
    http, 443 for https, 1080 for socks5, none otherwise) when it has no
    port of its own. *)
Definition portMap (scheme : string) : string :=
  if String.eqb scheme "http" then "80"
  else if String.eqb scheme "https" then "443"
  else if String.eqb scheme "socks5" then "1080"
  else EmptyString.

Definition canonicalAddr (u : string * string) : string :=
  if strings_Contains u.2 ":" then u.2
  else u.2 +:+ ":" +:+ portMap u.1.

(** *** A stand-in for the construction of the user client

    It refuses what client-go refuses when it builds the transport of a
    configuration, on a disk without certificate files and with inline data
    that is never PEM: a certificate authority together with the insecure
    flag, any key material that would have to be loaded, and a user name
    together with a bearer token. *)
Definition newForConfig (cfg : restclient.Config) : option sampleError :=
  let tls := restclient.TLS cfg in
  let given (data : list Byte.byte) := negb (Nat.eqb (List.length data) 0) in
  let named (file : string) := negb (String.eqb file EmptyString) in
  let hasCA := given (restclient.CAData tls) || named (restclient.CAFile tls) in
  let hasCertAuth :=
    (given (restclient.CertData tls) || named (restclient.CertFile tls)) &&
    (given (restclient.KeyData tls) || named (restclient.KeyFile tls)) in
  let missing (file : string) :=
    Some (mkError ("open " +:+ file +:+ ": no such file or directory") false false) in
  let authentication :=
    if named (restclient.Username cfg) && named (restclient.BearerToken cfg)
    then Some (mkError
                 "username/password or bearer token may be set, but not both"
                 false false)
    else None in
  if negb (hasCA || hasCertAuth || restclient.Insecure tls) then authentication
  else if hasCA && restclient.Insecure tls
  then Some (mkError
    "specifying a root certificates file with the insecure flag is not allowed"
    false false)
  else if negb (given (restclient.CAData tls)) && named (restclient.CAFile tls)
  then missing (restclient.CAFile tls)
  else if negb (given (restclient.CertData tls)) && named (restclient.CertFile tls)
  then missing (restclient.CertFile tls)
  else if negb (given (restclient.KeyData tls)) && named (restclient.KeyFile tls)
  then missing (restclient.KeyFile tls)
  else if hasCA
  then Some (mkError
    "unable to load root certificates: unable to parse bytes as PEM block"
    false false)
  else if hasCertAuth
  then Some (mkError "tls: failed to find any PEM data in certificate input"
               false false)
  else authentication.

#[export] Instance libraries : Util.Libraries :=
  {| Util.url_URL := string * string;
     Util.url_Parse := parse;
     Util.netutil_CanonicalAddr := canonicalAddr;
     Util.userv1typedclient_NewForConfig := newForConfig;
     Util.kerrors_IsNotFound := notFound;
     Util.kerrors_IsForbidden := forbidden;
     Util.context_DeadlineExceeded := mkError "context deadline exceeded" false false;
     Util.pollRetries := 60 |}.

(** No certificate authority, no client certificate, no key; the server's
    certificate is not verified.  Authentication is by bearer token or by
    user name. *)
Definition noTLS : restclient.TLSClientConfig :=
  {| restclient.Insecure := true;
     restclient.CertFile := ""; restclient.KeyFile := "";
     restclient.CAFile := "";
     restclient.CertData := []; restclient.KeyData := [];
     restclient.CAData := [] |}.

(** A certificate authority given inline together with the insecure flag:
    the client constructor refuses it. *)
Definition insecureWithCA : restclient.TLSClientConfig :=
  {| restclient.Insecure := true;
     restclient.CertFile := ""; restclient.KeyFile := "";
     restclient.CAFile := "";
     restclient.CertData := []; restclient.KeyData := [];
     restclient.CAData := [Byte.x03] |}.

Definition clientCfg : restclient.Config :=
  {| restclient.Host := "https://api.example.com";
     restclient.Username := "";
     restclient.BearerToken := "sha256~token";
     restclient.TLS := noTLS |}.

Definition refused : sampleError :=
  mkError "dial tcp 10.0.0.1:6443: connect: connection refused" false false.

(** A server that knows the user as [name], after refusing the first
    [down] connections. *)
Definition serverOf (down : nat) (name : string) : Util.Server :=
  fun k => if Nat.ltb k down
           then ({| Util.Name := "" |}, Some refused)
           else ({| Util.Name := name |}, None).

(** A server on which the user changes from one lookup to the next. *)
Definition renamingServer : Util.Server :=
  fun k => ({| Util.Name := if Nat.eqb k 0 then "alice" else "bob" |}, None).

(** A server that answers like [server] to the first [n] lookups and knows
    the user as [name] afterwards. *)
Definition changedAfter (n : nat) (server : Util.Server) (name : string)
  : Util.Server :=
  fun k => if Nat.ltb k n then server k else ({| Util.Name := name |}, None).

(** Every file of the world has "cluster-data" in its name. *)
Definition forall_names_contain_cluster_data
    (files : gmap string (list Byte.byte)) : Prop :=
  forall name, name ∈ dom files -> strings_Contains name "cluster-data" = true.

(** A server without the user API, after refusing the first [down]
    connections: every lookup is answered "forbidden". *)
Definition forbiddenError : sampleError :=
  mkError "users.user.openshift.io ~ is forbidden" false true.

Definition kubeServer (down : nat) : Util.Server :=
  fun k => if Nat.ltb k down
           then ({| Util.Name := "" |}, Some refused)
           else ({| Util.Name := "" |}, Some forbiddenError).

(** A server that fails every lookup with an internal error. *)
Definition internalError : sampleError :=
  mkError "Internal error occurred: etcd unavailable" false false.

Definition brokenServer : Util.Server :=
  fun _ => ({| Util.Name := "" |}, Some internalError).

(** A client configuration whose host has no dot. *)
Definition localCfg : restclient.Config :=
  {| restclient.Host := "https://localhost:6443";
     restclient.Username := "developer";
     restclient.BearerToken := "";
     restclient.TLS := noTLS |}.

(** A client configuration whose host does not parse: a host:port pair
    without a scheme, whose first path segment has a colon. *)
Definition badHostCfg : restclient.Config :=
  {| restclient.Host := "10.0.0.1:6443";
     restclient.Username := "";
     restclient.BearerToken := "sha256~token";
     restclient.TLS := noTLS |}.

(** A client configuration that the client constructor refuses. *)
Definition refusedCfg : restclient.Config :=
  {| restclient.Host := "https://api.example.com";
     restclient.Username := "";
     restclient.BearerToken := "sha256~token";
     restclient.TLS := insecureWithCA |}.

(** The kubeconfig expected for [clientCfg], namespace ["ns"] and a server
    that knows the user as ["alice"]. *)
Definition aliceConfig : clientcmdapi.Config :=
  {| clientcmdapi.Clusters :=
       {[ "api-example-com:443" :=
            {| clientcmdapi.Server := "https://api.example.com";
               clientcmdapi.InsecureSkipTLSVerify := true;
               clientcmdapi.CertificateAuthority := "";
               clientcmdapi.CertificateAuthorityData := [] |} ]};
     clientcmdapi.AuthInfos :=
       {[ "alice/api-example-com:443" :=
            {| clientcmdapi.ClientCertificate := "";
               clientcmdapi.ClientCertificateData := [];
               clientcmdapi.ClientKey := "";
               clientcmdapi.ClientKeyData := [];
               clientcmdapi.Token := "sha256~token" |} ]};
     clientcmdapi.Contexts :=
       {[ "ns/api-example-com:443/alice" :=
            {| clientcmdapi.Context_Cluster := "api-example-com:443";
               clientcmdapi.Context_AuthInfo := "alice/api-example-com:443";
               clientcmdapi.Namespace := "ns" |} ]};
     clientcmdapi.CurrentContext := "ns/api-example-com:443/alice" |}.

End Sample.

(** * Properties of the registry (types.go) *)

Module InvariantsFacts.
Import Invariants.

Section RegistryFacts.
Context {Observer : Type}.
Implicit Types (parent child r : gmap string (invariantItem Observer)).

Lemma AddInvariant_taken r name jira obs :
  is_Some (r !! name) ->
  AddInvariant r name jira obs = (r, Some (DuplicateNameError name)).
Proof. intros [item Hitem]. unfold AddInvariant. by rewrite Hitem. Qed.

Lemma AddInvariant_fresh r name jira obs :
  r !! name = None ->
  AddInvariant r name jira obs = (<[name := mkItem jira obs]> r, None).
Proof. intros Hfresh. unfold AddInvariant. by rewrite Hfresh. Qed.

Lemma AddInvariantOrDie_taken r name jira obs :
  is_Some (r !! name) ->
  AddInvariantOrDie r name jira obs = Died (DuplicateNameError name).
Proof.
  intros Htaken. unfold AddInvariantOrDie.
  by rewrite AddInvariant_taken.
Qed.

Lemma AddInvariantOrDie_fresh r name item :
  r !! name = None ->
  AddInvariantOrDie r name (jiraComponent item) (invariantTest item)
  = Done (<[name := item]> r).
Proof.
  intros Hfresh. unfold AddInvariantOrDie.
  rewrite AddInvariant_fresh by done. by destruct item.
Qed.

Lemma AddRegistryOrDie_composed parent child :
  composed parent (AddRegistryOrDie parent child) child.
Proof.
  unfold AddRegistryOrDie.
  apply (map_fold_weak_ind (composed parent)).
  - split; [apply map_disjoint_empty_r | by rewrite (right_id_L ∅ (∪))].
  - intros name item m [r | e] Hfresh Hacc; simpl in *.
    + destruct Hacc as [Hdisj ->].
      destruct (parent !! name) as [taken|] eqn:Hparent.
      * rewrite AddInvariantOrDie_taken
          by (rewrite lookup_union_l by done; eauto).
        exists name. rewrite lookup_insert_eq. eauto.
      * rewrite AddInvariantOrDie_fresh by (by rewrite lookup_union_r).
        split; [by apply map_disjoint_insert_r_2 | by rewrite insert_union_r].
    + destruct Hacc as (dup & -> & Hp & Hm).
      exists dup. split_and!; [done | done |].
      rewrite lookup_insert_is_Some. destruct (decide (name = dup)); eauto.
Qed.

End RegistryFacts.

(** C1. Registering under a name that the registry already holds fails with
    the duplicate-name error and leaves the registry as it was; registering
    under a fresh name succeeds and stores the binding, and from then on any
    further registration under that name fails, whichever observer came
    first and also when the very same observer is given again. *)
Theorem AddInvariant_duplicate_name {Observer : Type}
    (r : gmap string (invariantItem Observer))
    (name jira : string) (obs : Observer) :
  (is_Some (r !! name) ->
   AddInvariant r name jira obs = (r, Some (DuplicateNameError name))) /\
  (r !! name = None ->
   exists r',
     AddInvariant r name jira obs = (r', None) /\
     r' !! name = Some (mkItem jira obs) /\
     (forall other, other <> name -> r' !! other = r !! other) /\
     (forall jira' obs',
        AddInvariant r' name jira' obs' = (r', Some (DuplicateNameError name))) /\
     AddInvariant r' name jira obs = (r', Some (DuplicateNameError name))).
Proof.
  split.
  - apply AddInvariant_taken.
  - intros Hfresh. exists (<[name := mkItem jira obs]> r).
    assert (Hnow : <[name := mkItem jira obs]> r !! name = Some (mkItem jira obs))
      by apply lookup_insert_eq.
    split_and!.
    + by apply AddInvariant_fresh.
    + done.
    + intros other Hother. by apply lookup_insert_ne.
    + intros jira' obs'. apply AddInvariant_taken. eauto.
    + apply AddInvariant_taken. eauto.
Qed.

(** C2. Composing a child registry into a parent merges every entry of the
    child into the parent when the two share no name, and dies with the
    duplicate-name error of a shared name when they do; in that case the
    execution reports that error and no phase is invoked. *)
Theorem AddRegistryOrDie_merge_or_duplicate {Observer : Type}
    (parent child : gmap string (invariantItem Observer)) :
  (parent ##ₘ child ->
   AddRegistryOrDie parent child = Done (parent ∪ child) /\
   (forall name item, child !! name = Some item ->
                      (parent ∪ child) !! name = Some item) /\
   (forall name item, parent !! name = Some item ->
                      (parent ∪ child) !! name = Some item)) /\
  (forall name, is_Some (parent !! name) -> is_Some (child !! name) ->
   exists dup,
     is_Some (parent !! dup) /\ is_Some (child !! dup) /\
     AddRegistryOrDie parent child = Died (DuplicateNameError dup) /\
     phaseCalls (AddRegistryOrDie parent child) = Died (DuplicateNameError dup)).
Proof.
  pose proof (AddRegistryOrDie_composed parent child) as Hcomposed.
  destruct (AddRegistryOrDie parent child) as [r | e]; simpl in Hcomposed.
  - destruct Hcomposed as [Hdisj ->]. split.
    + intros _. split_and!; [done | |].
      * intros name item Hchild. apply lookup_union_Some; [done | by right].
      * intros name item Hparent. by apply lookup_union_Some_l.
    + intros name [x Hx] [y Hy]. exfalso.
      by apply (proj1 (map_disjoint_spec parent child) Hdisj name x y).
  - destruct Hcomposed as (dup & -> & [x Hx] & [y Hy]). split.
    + intros Hdisj. exfalso.
      by apply (proj1 (map_disjoint_spec parent child) Hdisj dup x y).
    + intros _ _ _. exists dup. split_and!; eauto.
Qed.

Lemma AddInvariant_duplicate_name_witness :
  (exists r',
     AddInvariant (∅ : gmap string (invariantItem nat)) "audit-log" "kube-apiserver" 7
     = (r', None) /\
     AddInvariant r' "audit-log" "kube-apiserver" 7
     = (r', Some (DuplicateNameError "audit-log"))) /\
  AddInvariant ({[ "audit-log" := mkItem "kube-apiserver" 7 ]}) "audit-log" "etcd" 8
  = ({[ "audit-log" := mkItem "kube-apiserver" 7 ]},
     Some (DuplicateNameError "audit-log")).
Proof.
  split.
  - destruct (AddInvariant_duplicate_name
                (∅ : gmap string (invariantItem nat)) "audit-log" "kube-apiserver" 7)
      as [_ Hfresh].
    destruct (Hfresh (lookup_empty _)) as (r' & Hadd & _ & _ & _ & Hagain).
    exists r'. split; [exact Hadd | exact Hagain].
  - apply (AddInvariant_duplicate_name
             ({[ "audit-log" := mkItem "kube-apiserver" 7 ]}) "audit-log" "etcd" 8).
    rewrite lookup_singleton_eq. eauto.
Defined.

Lemma AddRegistryOrDie_merge_or_duplicate_witness :
  AddRegistryOrDie ({[ "audit-log" := mkItem "kube-apiserver" 7 ]})
                   ({[ "cluster-info" := mkItem "Test Framework" 8 ]})
  = Done ({[ "audit-log" := mkItem "kube-apiserver" 7 ]}
          ∪ {[ "cluster-info" := mkItem "Test Framework" 8 ]}) /\
  exists dup,
    AddRegistryOrDie
      ({[ "audit-log" := mkItem "kube-apiserver" 7 ]})
      (<[ "audit-log" := mkItem "etcd" 9 ]>
         {[ "cluster-info" := mkItem "Test Framework" 8 ]})
    = Died (DuplicateNameError dup).
Proof.
  split.
  - apply (AddRegistryOrDie_merge_or_duplicate
             ({[ "audit-log" := mkItem "kube-apiserver" 7 ]})
             ({[ "cluster-info" := mkItem "Test Framework" 8 ]})).
    apply map_disjoint_singleton_l. by rewrite lookup_singleton_ne.
  - destruct (proj2 (AddRegistryOrDie_merge_or_duplicate
                       ({[ "audit-log" := mkItem "kube-apiserver" 7 ]})
                       (<[ "audit-log" := mkItem "etcd" 9 ]>
                          {[ "cluster-info" := mkItem "Test Framework" 8 ]}))
                    "audit-log")
      as (dup & _ & _ & Hdied & _).
    + rewrite lookup_singleton_eq. eauto.
    + rewrite lookup_insert_eq. eauto.
    + exists dup. exact Hdied.
Defined.

(** C3. The method set that invariant.go declares for [*clusterInfoSerializer]
    gives [CollectData] the parameters (context, begin, end); the interface
    asks for (context, storageDir, begin, end), so the type does not
    satisfy [InvariantTest]. *)
Theorem clusterInfoSerializer_CollectData_signature :
  method ClusterInfoSerializer.methods "CollectData"
  = Some (mkSig [TContext; TTime; TTime] [TIntervals; TJUnitTestCases; TError]) /\
  method InvariantTest "CollectData"
  = Some (mkSig [TContext; TString; TTime; TTime]
                [TIntervals; TJUnitTestCases; TError]) /\
  implements ClusterInfoSerializer.methods InvariantTest = false /\
  (forall name, name <> "CollectData" ->
     is_Some (method InvariantTest name) ->
     method ClusterInfoSerializer.methods name = method InvariantTest name).
Proof.
  split_and!; [by vm_compute | by vm_compute | by vm_compute |].
  intros name Hname [sig Hsig].
  unfold method in *.
  apply elem_of_list_to_map_2 in Hsig.
  repeat (apply elem_of_cons in Hsig as [Heq | Hsig];
          [injection Heq as -> ->; first [done | by vm_compute] |]).
  by apply elem_of_nil in Hsig.
Qed.

End InvariantsFacts.

(** * Properties of the cluster-info serializer (invariant.go) *)

Module ClusterInfoSerializerFacts.
Import ClusterInfoSerializer.

Section SerializerFacts.
Context `{Collaborators}.

Lemma cleanups_unchanged (w : clusterInfoSerializer) (ctxs : list context_Context) :
  cleanups w ctxs = (w, replicate (List.length ctxs) None).
Proof.
  induction ctxs as [|ctx rest IH]; simpl; [done|]. by rewrite IH.
Qed.

End SerializerFacts.

(** C4. [Cleanup] of the cluster-info serializer is idempotent: any number
    of consecutive invocations leaves the observer's state as it was and
    each of them returns no error; a second invocation after a first gives
    what the first gave. *)
Theorem Cleanup_idempotent `{Collaborators}
    (w : clusterInfoSerializer) (ctxs : list context_Context) :
  cleanups w ctxs = (w, replicate (List.length ctxs) None) /\
  (forall ctx, Cleanup w ctx = (w, None)) /\
  (forall ctx1 ctx2,
     Cleanup (Cleanup w ctx1).1 ctx2 = Cleanup w ctx1 /\
     (cleanups w [ctx1; ctx2]).1 = (cleanups w [ctx1]).1).
Proof.
  split_and!.
  - apply cleanups_unchanged.
  - done.
  - intros ctx1 ctx2. by rewrite !cleanups_unchanged.
Qed.

(** C5. [ConstructComputedIntervals] of the cluster-info serializer returns
    the empty interval set and no error, whatever the input intervals, the
    resources and the time window: no interval of the input is in its
    result, and the observer's state is as before. *)
Theorem ConstructComputedIntervals_only_new `{Collaborators}
    (w : clusterInfoSerializer) (ctx : context_Context)
    (startingIntervals : list Interval) (recordedResources : ResourcesMap)
    (beginning end_ : time_Time) :
  ConstructComputedIntervals w ctx startingIntervals recordedResources beginning end_
  = (w, ([], None)) /\
  (forall interval,
     interval ∈ startingIntervals ->
     interval ∉ (ConstructComputedIntervals w ctx startingIntervals
                   recordedResources beginning end_).2.1).
Proof.
  split; [done|]. intros interval _. simpl. apply not_elem_of_nil.
Qed.

(** C10. [StartCollection], [CollectData], [ConstructComputedIntervals],
    [EvaluateTestsFromConstructedIntervals] and [Cleanup] return a nil error
    and empty intervals and results for all inputs.  An error of
    [WriteContentToStorage] is the error of the JSON serialization, or else
    the error of the file write; and it returns either of them when it
    occurs. *)
Theorem only_WriteContentToStorage_fails `{Collaborators}
    (w : clusterInfoSerializer) (ctx : context_Context) :
  (forall cfg recorder, (StartCollection w ctx cfg recorder).2 = None) /\
  (forall beginning end_,
     (CollectData w ctx beginning end_).2 = ([], [], None)) /\
  (forall starting resources beginning end_,
     (ConstructComputedIntervals w ctx starting resources beginning end_).2
     = ([], None)) /\
  (forall final,
     (EvaluateTestsFromConstructedIntervals w ctx final).2 = ([], None)) /\
  (Cleanup w ctx).2 = None /\
  (forall storageDir timeSuffix final resources world,
     let filename :=
       filepath_Join storageDir ("cluster-data" +:+ timeSuffix +:+ ".json") in
     let data :=
       monitor_CollectClusterData world (adminRESTConfig w)
         (monitor_WasMasterNodeUpdated final) in
     let result :=
       (WriteContentToStorage w ctx storageDir timeSuffix final resources world).2 in
     (forall err, json_MarshalIndent data "" "    " = inr err ->
                  result = (world, Some err)) /\
     (forall content, json_MarshalIndent data "" "    " = inl content ->
                      result = ioutil_WriteFile filename content 420 world) /\
     (forall err, result.2 = Some err ->
        json_MarshalIndent data "" "    " = inr err \/
        exists content,
          json_MarshalIndent data "" "    " = inl content /\
          (ioutil_WriteFile filename content 420 world).2 = Some err)).
Proof.
  split_and!; try done.
  intros storageDir timeSuffix final resources world filename data result.
  subst result. unfold WriteContentToStorage, writeClusterData, collectClusterData.
  simpl. fold filename data.
  destruct (json_MarshalIndent data "" "    ") as [content | failed] eqn:Hjson.
  - split_and!.
    + intros err [=].
    + by intros ? [= <-].
    + intros err Hwrite. right. eauto.
  - split_and!.
    + by intros ? [= <-].
    + intros content [=].
    + intros err [= <-]. by left.
Qed.

Section OnSample.
Import Sample.

(** On the sample instance: a serializer that was never started has no
    cluster data to serialize and fails; once started it writes its file. *)
Lemma only_WriteContentToStorage_fails_witness :
  (WriteContentToStorage NewClusterInfoSerializer () "/logs" "_1" [] () ∅).2.2
  = Some (Sample.mkError "json: unsupported value" false false) /\
  (WriteContentToStorage (StartCollection NewClusterInfoSerializer () (Some "api") ()).1
     () "/logs" "_1" [] () ∅).2
  = ({["/logs/cluster-data_1.json" := list_byte_of_string "api N"]}, None).
Proof.
  pose proof (only_WriteContentToStorage_fails NewClusterInfoSerializer ())
    as (_ & _ & _ & _ & _ & Hwrite).
  split.
  - destruct (Hwrite "/logs" "_1" [] () ∅) as (Hjson & _ & _).
    by rewrite (Hjson (Sample.mkError "json: unsupported value" false false)).
  - pose proof (only_WriteContentToStorage_fails
                  (StartCollection NewClusterInfoSerializer () (Some "api") ()).1 ())
      as (_ & _ & _ & _ & _ & Hstarted).
    destruct (Hstarted "/logs" "_1" [] () ∅) as (_ & Hfile & _).
    by rewrite (Hfile (list_byte_of_string "api N")).
Defined.

End OnSample.

End ClusterInfoSerializerFacts.

(** * Properties of the kubeconfig builder (oc_copy.go) *)

Module UtilFacts.
Import Util.

(** ** Replacing dots *)

Example strings_Replace_host :
  strings_Replace "api.example.com:443" "." "-" = "api-example-com:443".
Proof. reflexivity. Qed.

Example strings_Replace_non_overlapping :
  strings_Replace "aaa.aa" "aa" "b" = "ba.b".
Proof. reflexivity. Qed.

Example strings_Contains_refused :
  strings_Contains "dial tcp 10.0.0.1:6443: connect: connection refused"
                   "connect: connection refused" = true /\
  strings_Contains "context deadline exceeded" "connect: connection refused" = false.
Proof. split; reflexivity. Qed.

Lemma prefix_dot (c : ascii) (s : string) :
  String.prefix "." (String c s) = Ascii.eqb c ".".
Proof.
  cbn [String.prefix]. destruct (ascii_dec "." c) as [<- | Hne]; [by destruct s|].
  symmetry. apply Ascii.eqb_neq. congruence.
Qed.

Lemma strings_Replace_dot (s : string) :
  strings_Replace s "." "-" = everyDotReplaced s.
Proof.
  unfold strings_Replace.
  induction s as [|c s IH]; [done|].
  cbn [replace_scan everyDotReplaced]. rewrite prefix_dot.
  destruct (Ascii.eqb c "."); cbn; by rewrite IH.
Qed.

Lemma everyDotReplaced_no_dot (s : string) :
  strings_Contains (everyDotReplaced s) "." = false.
Proof.
  induction s as [|c s IH]; [done|].
  cbn [everyDotReplaced strings_Contains]. rewrite prefix_dot, IH.
  destruct (Ascii.eqb c ".") eqn:Hc; [done|]. by rewrite Hc.
Qed.

Lemma everyDotReplaced_length (s : string) :
  String.length (everyDotReplaced s) = String.length s.
Proof. induction s as [|c s IH]; simpl; congruence. Qed.

Section OcCopyFacts.
Context `{Libraries}.

(** ** The poll and the lookups it issues *)

Lemma PollUntilContextTimeout_unfold {S : Type} retries
    (condition : S -> S * (bool * option error)) (s : S) :
  PollUntilContextTimeout retries condition s =
  let '(s1, (ok, err)) := condition s in
  if bool_decide (is_Some err) || ok then (s1, err)
  else match retries with
       | O => (s1, Some context_DeadlineExceeded)
       | Datatypes.S k => PollUntilContextTimeout k condition s1
       end.
Proof. by destruct retries. Qed.

Lemma pollCondition_gets server s :
  (pollCondition server s).1.2 = Datatypes.S s.2.
Proof.
  unfold pollCondition. destruct (server s.2) as [u [e|]]; [|done].
  by destruct (strings_Contains _ _).
Qed.

Lemma pollCondition_ext server1 server2 s :
  server1 s.2 = server2 s.2 ->
  pollCondition server1 s = pollCondition server2 s.
Proof. intros Hsame. unfold pollCondition. by rewrite Hsame. Qed.

Lemma poll_gets_lt server retries s :
  s.2 < (PollUntilContextTimeout retries (pollCondition server) s).1.2.
Proof.
  revert s. induction retries as [|k IH]; intros s;
    rewrite PollUntilContextTimeout_unfold;
    pose proof (pollCondition_gets server s) as Hgets;
    destruct (pollCondition server s) as [s1 [ok err]]; simpl in Hgets;
    destruct (bool_decide (is_Some err) || ok); simpl; try lia.
  specialize (IH s1). lia.
Qed.

Lemma poll_ext server1 server2 retries s :
  (forall k,
     s.2 <= k < (PollUntilContextTimeout retries (pollCondition server1) s).1.2 ->
     server1 k = server2 k) ->
  PollUntilContextTimeout retries (pollCondition server1) s
  = PollUntilContextTimeout retries (pollCondition server2) s.
Proof.
  revert s. induction retries as [|k IH]; intros s Hagree.
  - rewrite !PollUntilContextTimeout_unfold.
    rewrite <- (pollCondition_ext server1 server2); [done|].
    apply Hagree. split; [lia | apply poll_gets_lt].
  - pose proof (poll_gets_lt server1 (Datatypes.S k) s) as Hlt.
    rewrite !PollUntilContextTimeout_unfold in *.
    rewrite <- (pollCondition_ext server1 server2) by (apply Hagree; lia).
    pose proof (pollCondition_gets server1 s) as Hgets.
    destruct (pollCondition server1 s) as [s1 [ok err]]; simpl in Hgets.
    destruct (bool_decide (is_Some err) || ok); [done|].
    apply IH. intros j Hj. apply Hagree. lia.
Qed.

Lemma getUserPartOfNickname_gets server clientCfg gets :
  (getUserPartOfNickname server clientCfg gets).2 =
  match userv1typedclient_NewForConfig clientCfg with
  | Some _ => gets
  | None =>
      (PollUntilContextTimeout pollRetries (pollCondition server) (None, gets)).1.2
  end.
Proof.
  unfold getUserPartOfNickname.
  destruct (userv1typedclient_NewForConfig clientCfg); [done|].
  destruct (PollUntilContextTimeout _ _ _) as [[userInfo gets1] err].
  by repeat case_match.
Qed.

Lemma getUserPartOfNickname_gets_le server clientCfg gets :
  gets <= (getUserPartOfNickname server clientCfg gets).2.
Proof.
  rewrite getUserPartOfNickname_gets.
  destruct (userv1typedclient_NewForConfig clientCfg); [done|].
  pose proof (poll_gets_lt server pollRetries (None, gets)). simpl in *. lia.
Qed.

Lemma getUserPartOfNickname_ext server1 server2 clientCfg gets :
  (forall k, gets <= k < (getUserPartOfNickname server1 clientCfg gets).2 ->
             server1 k = server2 k) ->
  getUserPartOfNickname server1 clientCfg gets
  = getUserPartOfNickname server2 clientCfg gets.
Proof.
  rewrite getUserPartOfNickname_gets. unfold getUserPartOfNickname.
  destruct (userv1typedclient_NewForConfig clientCfg); [done|].
  intros Hagree. by rewrite (poll_ext server1 server2).
Qed.

Lemma getUserNicknameFromConfig_gets server clientCfg gets :
  (getUserNicknameFromConfig server clientCfg gets).2
  = (getUserPartOfNickname server clientCfg gets).2.
Proof.
  unfold getUserNicknameFromConfig.
  destruct (getUserPartOfNickname server clientCfg gets) as [[part|err] gets1];
    [|done].
  by destruct (getClusterNicknameFromConfig clientCfg).
Qed.

Lemma getContextNicknameFromConfig_gets server namespace clientCfg gets :
  (getContextNicknameFromConfig server namespace clientCfg gets).2
  = (getUserPartOfNickname server clientCfg gets).2.
Proof.
  unfold getContextNicknameFromConfig.
  destruct (getUserPartOfNickname server clientCfg gets) as [[part|err] gets1];
    [|done].
  by destruct (getClusterNicknameFromConfig clientCfg).
Qed.

Lemma getUserNicknameFromConfig_ext server1 server2 clientCfg gets :
  (forall k, gets <= k < (getUserNicknameFromConfig server1 clientCfg gets).2 ->
             server1 k = server2 k) ->
  getUserNicknameFromConfig server1 clientCfg gets
  = getUserNicknameFromConfig server2 clientCfg gets.
Proof.
  rewrite getUserNicknameFromConfig_gets. intros Hagree.
  unfold getUserNicknameFromConfig.
  by rewrite (getUserPartOfNickname_ext server1 server2).
Qed.

Lemma getContextNicknameFromConfig_ext server1 server2 namespace clientCfg gets :
  (forall k,
     gets <= k < (getContextNicknameFromConfig server1 namespace clientCfg gets).2 ->
     server1 k = server2 k) ->
  getContextNicknameFromConfig server1 namespace clientCfg gets
  = getContextNicknameFromConfig server2 namespace clientCfg gets.
Proof.
  rewrite getContextNicknameFromConfig_gets. intros Hagree.
  unfold getContextNicknameFromConfig.
  by rewrite (getUserPartOfNickname_ext server1 server2).
Qed.

(** What a successful [createConfig] went through. *)
Lemma createConfig_inl server namespace clientCfg gets config gets' :
  createConfig server namespace clientCfg gets = (inl config, gets') ->
  exists clusterNick userNick contextNick gets1,
    getClusterNicknameFromConfig clientCfg = inl clusterNick /\
    getUserNicknameFromConfig server clientCfg gets = (inl userNick, gets1) /\
    getContextNicknameFromConfig server namespace clientCfg gets1
    = (inl contextNick, gets') /\
    config =
      {| clientcmdapi.AuthInfos := {[ userNick := credentialsOf clientCfg ]};
         clientcmdapi.Clusters := {[ clusterNick := clusterOf clientCfg ]};
         clientcmdapi.Contexts :=
           {[ contextNick := contextOf clusterNick userNick namespace ]};
         clientcmdapi.CurrentContext := contextNick |}.
Proof.
  unfold createConfig.
  destruct (getClusterNicknameFromConfig clientCfg) as [clusterNick|]; [|done].
  destruct (getUserNicknameFromConfig server clientCfg gets)
    as [[userNick|] gets1] eqn:Huser; [|done].
  destruct (getContextNicknameFromConfig server namespace clientCfg gets1)
    as [[contextNick|] gets2] eqn:Hcontext; [|done].
  intros [= <- <-]. exists clusterNick, userNick, contextNick, gets1.
  split_and!; [done | done | done |]. simpl. by rewrite !insert_empty.
Qed.

Lemma createConfig_ext server1 server2 namespace clientCfg gets :
  (forall k, gets <= k < (createConfig server1 namespace clientCfg gets).2 ->
             server1 k = server2 k) ->
  createConfig server1 namespace clientCfg gets
  = createConfig server2 namespace clientCfg gets.
Proof.
  unfold createConfig.
  destruct (getClusterNicknameFromConfig clientCfg) as [clusterNick|]; [|done].
  intros Hagree.
  pose proof (getUserNicknameFromConfig_gets server1 clientCfg gets) as Hg1.
  pose proof (getUserPartOfNickname_gets_le server1 clientCfg gets) as Hle1.
  pose proof (getUserNicknameFromConfig_ext server1 server2 clientCfg gets) as Hu.
  destruct (getUserNicknameFromConfig server1 clientCfg gets)
    as [[userNick|err] gets1]; simpl in *.
  - pose proof (getContextNicknameFromConfig_gets server1 namespace clientCfg gets1)
      as Hg2.
    pose proof (getUserPartOfNickname_gets_le server1 clientCfg gets1) as Hle2.
    pose proof (getContextNicknameFromConfig_ext
                  server1 server2 namespace clientCfg gets1) as Hc.
    destruct (getContextNicknameFromConfig server1 namespace clientCfg gets1)
      as [[contextNick|err] gets2]; simpl in *.
    + rewrite <- Hu by (intros k Hk; apply Hagree; lia).
      by rewrite <- Hc by (intros k Hk; apply Hagree; lia).
    + rewrite <- Hu by (intros k Hk; apply Hagree; lia).
      by rewrite <- Hc by (intros k Hk; apply Hagree; lia).
  - by rewrite <- Hu by (intros k Hk; apply Hagree; lia).
Qed.

Lemma pollCondition_refused server s u e :
  server s.2 = (u, Some e) ->
  strings_Contains (error_Error e) "connect: connection refused" = true ->
  pollCondition server s = ((Some u, Datatypes.S s.2), (false, None)).
Proof. intros Hget Hmsg. unfold pollCondition. by rewrite Hget, Hmsg. Qed.

Lemma pollCondition_answered server s u :
  server s.2 = (u, None) ->
  pollCondition server s = ((Some u, Datatypes.S s.2), (true, None)).
Proof. intros Hget. unfold pollCondition. by rewrite Hget. Qed.

Lemma poll_retried server retries down userInfo gets u :
  down <= retries ->
  (forall k, k < down -> refusedAt server (gets + k)) ->
  server (gets + down) = (u, None) ->
  PollUntilContextTimeout retries (pollCondition server) (userInfo, gets)
  = ((Some u, gets + down + 1), None).
Proof.
  revert retries userInfo gets.
  induction down as [|down IH]; intros retries userInfo gets Hle Hrefused Hanswer.
  - rewrite Nat.add_0_r in Hanswer.
    rewrite PollUntilContextTimeout_unfold, (pollCondition_answered _ _ u) by done.
    simpl. do 2 f_equal. f_equal. lia.
  - destruct retries as [|retries]; [lia|].
    destruct (Hrefused 0) as (u0 & e0 & Hfirst & Hmsg); [lia|].
    rewrite Nat.add_0_r in Hfirst.
    rewrite PollUntilContextTimeout_unfold,
      (pollCondition_refused _ _ u0 e0) by done.
    simpl. rewrite (IH retries (Some u0) (Datatypes.S gets)).
    + do 2 f_equal. f_equal. lia.
    + lia.
    + intros k Hk. replace (Datatypes.S gets + k) with (gets + Datatypes.S k) by lia.
      apply Hrefused. lia.
    + by replace (Datatypes.S gets + down) with (gets + Datatypes.S down) by lia.
Qed.

Lemma getContextNicknameFromConfig_inl server namespace clientCfg gets
    contextNick gets' :
  getContextNicknameFromConfig server namespace clientCfg gets
  = (inl contextNick, gets') ->
  exists userPartOfNick clusterNick,
    getUserPartOfNickname server clientCfg gets = (inl userPartOfNick, gets') /\
    getClusterNicknameFromConfig clientCfg = inl clusterNick /\
    contextNick = namespace +:+ "/" +:+ clusterNick +:+ "/" +:+ userPartOfNick.
Proof.
  unfold getContextNicknameFromConfig.
  destruct (getUserPartOfNickname server clientCfg gets) as [[part|] gets1];
    [|done].
  destruct (getClusterNicknameFromConfig clientCfg) as [clusterNick|]; [|done].
  intros [= <- <-]. by exists part, clusterNick.
Qed.

End OcCopyFacts.

(** C6, as amended. The result of [createConfig] is a function of its
    arguments and of the answers of the API server to the user lookups it
    issues: two runs on equal arguments give equal results when the server
    answers those lookups alike.  A lookup whose connection is refused is
    tried again, up to the poll's bound, and the answer that comes then is
    the one used. *)
Theorem createConfig_determined_by_answers `{Libraries}
    (server1 server2 : Server) (namespace : string)
    (clientCfg : restclient.Config) (gets : nat) :
  ((forall k, gets <= k < (createConfig server1 namespace clientCfg gets).2 ->
              server1 k = server2 k) ->
   createConfig server1 namespace clientCfg gets
   = createConfig server2 namespace clientCfg gets) /\
  (forall down u,
     down <= pollRetries ->
     userv1typedclient_NewForConfig clientCfg = None ->
     (forall k, k < down -> refusedAt server1 (gets + k)) ->
     server1 (gets + down) = (u, None) ->
     getUserPartOfNickname server1 clientCfg gets = (inl (Name u), gets + down + 1)).
Proof.
  split.
  - apply createConfig_ext.
  - intros down u Hdown Hclient Hrefused Hanswer.
    unfold getUserPartOfNickname.
    by rewrite Hclient, (poll_retried server1 pollRetries down None gets u).
Qed.

(** C7. In the record a successful [createConfig] returns, every cluster
    entry has the configuration's host as server and its insecure flag, every
    auth entry has the bearer token, and certificate, key and certificate
    authority are the configured file paths; the inline data is there when
    the file path is empty and absent otherwise.  There is such a cluster
    entry and such an auth entry. *)
Theorem createConfig_maps_connection `{Libraries}
    (server : Server) (namespace : string) (clientCfg : restclient.Config)
    (gets : nat) (config : clientcmdapi.Config) (gets' : nat) :
  createConfig server namespace clientCfg gets = (inl config, gets') ->
  let tls := restclient.TLS clientCfg in
  (forall nick cluster,
     clientcmdapi.Clusters config !! nick = Some cluster ->
     clientcmdapi.Server cluster = restclient.Host clientCfg /\
     clientcmdapi.InsecureSkipTLSVerify cluster = restclient.Insecure tls /\
     clientcmdapi.CertificateAuthority cluster = restclient.CAFile tls /\
     clientcmdapi.CertificateAuthorityData cluster
     = match restclient.CAFile tls with
       | EmptyString => restclient.CAData tls
       | _ => []
       end) /\
  (forall nick credentials,
     clientcmdapi.AuthInfos config !! nick = Some credentials ->
     clientcmdapi.Token credentials = restclient.BearerToken clientCfg /\
     clientcmdapi.ClientCertificate credentials = restclient.CertFile tls /\
     clientcmdapi.ClientKey credentials = restclient.KeyFile tls /\
     clientcmdapi.ClientCertificateData credentials
     = match restclient.CertFile tls with
       | EmptyString => restclient.CertData tls
       | _ => []
       end /\
     clientcmdapi.ClientKeyData credentials
     = match restclient.KeyFile tls with
       | EmptyString => restclient.KeyData tls
       | _ => []
       end) /\
  (exists nick, is_Some (clientcmdapi.Clusters config !! nick)) /\
  (exists nick, is_Some (clientcmdapi.AuthInfos config !! nick)).
Proof.
  intros Hrun tls.
  apply createConfig_inl in Hrun
    as (clusterNick & userNick & contextNick & gets1 & _ & _ & _ & ->).
  simpl. split_and!.
  - intros nick cluster [_ <-]%lookup_singleton_Some.
    unfold clusterOf. simpl. fold tls.
    split_and!; [done | done | done |]. by destruct (restclient.CAFile tls).
  - intros nick credentials [_ <-]%lookup_singleton_Some.
    unfold credentialsOf. simpl. fold tls.
    split_and!; [done | done | done | |].
    + by destruct (restclient.CertFile tls).
    + by destruct (restclient.KeyFile tls).
  - exists clusterNick. rewrite lookup_singleton_eq. eauto.
  - exists userNick. rewrite lookup_singleton_eq. eauto.
Qed.

(** C8, as amended. The record a successful [createConfig] returns has one
    cluster entry, one auth-info entry and one context entry; the context
    names the cluster and the auth-info by the keys they are stored under;
    and [CurrentContext] is the key of the context, which is namespace, "/",
    cluster nickname, "/" and the user part of the nickname as the second
    lookup of the user gave it. *)
Theorem createConfig_consistent `{Libraries}
    (server : Server) (namespace : string) (clientCfg : restclient.Config)
    (gets : nat) (config : clientcmdapi.Config) (gets' : nat) :
  createConfig server namespace clientCfg gets = (inl config, gets') ->
  exists clusterNick userNick contextNick userPartOfNick gets1,
    getClusterNicknameFromConfig clientCfg = inl clusterNick /\
    getUserNicknameFromConfig server clientCfg gets = (inl userNick, gets1) /\
    getUserPartOfNickname server clientCfg gets1 = (inl userPartOfNick, gets') /\
    contextNick = namespace +:+ "/" +:+ clusterNick +:+ "/" +:+ userPartOfNick /\
    (exists cluster, clientcmdapi.Clusters config = {[ clusterNick := cluster ]}) /\
    (exists credentials,
       clientcmdapi.AuthInfos config = {[ userNick := credentials ]}) /\
    (exists context,
       clientcmdapi.Contexts config = {[ contextNick := context ]} /\
       clientcmdapi.Context_Cluster context = clusterNick /\
       clientcmdapi.Context_AuthInfo context = userNick) /\
    size (clientcmdapi.Clusters config) = 1 /\
    size (clientcmdapi.AuthInfos config) = 1 /\
    size (clientcmdapi.Contexts config) = 1 /\
    clientcmdapi.CurrentContext config = contextNick.
Proof.
  intros Hrun.
  apply createConfig_inl in Hrun
    as (clusterNick & userNick & contextNick & gets1 & Hcluster & Huser & Hcontext & ->).
  apply getContextNicknameFromConfig_inl in Hcontext
    as (part & clusterNick' & Hpart & Hcluster' & ->).
  rewrite Hcluster in Hcluster'. injection Hcluster' as <-.
  exists clusterNick, userNick, (namespace +:+ "/" +:+ clusterNick +:+ "/" +:+ part),
    part, gets1.
  simpl. rewrite !map_size_singleton. split_and!; eauto.
Qed.

(** C9. When the host of the client configuration parses as a URL,
    [getClusterNicknameFromConfig] succeeds; the nickname is the canonical
    host:port of that URL with every '.' replaced by '-', and it contains
    no '.'. *)
Theorem getClusterNicknameFromConfig_no_dot `{Libraries}
    (clientCfg : restclient.Config) (u : url_URL) :
  url_Parse (restclient.Host clientCfg) = inl u ->
  exists nick,
    getClusterNicknameFromConfig clientCfg = inl nick /\
    nick = everyDotReplaced (netutil_CanonicalAddr u) /\
    strings_Contains nick "." = false /\
    String.length nick = String.length (netutil_CanonicalAddr u).
Proof.
  intros Hparse. unfold getClusterNicknameFromConfig. rewrite Hparse.
  exists (everyDotReplaced (netutil_CanonicalAddr u)).
  rewrite strings_Replace_dot. split_and!; [done | done | |].
  - apply everyDotReplaced_no_dot.
  - apply everyDotReplaced_length.
Qed.

Section OnSample.
Import Sample.

(** The sample inputs are ones the libraries accept: the host parses and
    the user client is built, so that the server is asked. *)
Example clientCfg_accepted :
  url_Parse (restclient.Host clientCfg) = inl ("https", "api.example.com") /\
  userv1typedclient_NewForConfig clientCfg = None /\
  getUserPartOfNickname (serverOf 0 "alice") clientCfg 0 = (inl "alice", 1).
Proof. by vm_compute. Qed.

(** A configuration that the client constructor refuses never reaches the
    server: the result is the constructor's error, whatever the server. *)
Example createConfig_refusedCfg (server : Server) (namespace : string) :
  createConfig server namespace refusedCfg 0
  = (inr (Err (mkError
       "specifying a root certificates file with the insecure flag is not allowed"
       false false)), 0).
Proof. reflexivity. Qed.

(** When the user is renamed between the two lookups, the context key
    carries the later name and the auth-info key the earlier one. *)
Example createConfig_renamed_between_lookups :
  match (createConfig renamingServer "ns" clientCfg 0).1 with
  | inl config =>
      clientcmdapi.CurrentContext config = "ns/api-example-com:443/bob" /\
      (map_to_list (clientcmdapi.AuthInfos config)).*1 = ["alice/api-example-com:443"]
  | inr _ => False
  end.
Proof. by vm_compute. Qed.

Lemma createConfig_alice :
  createConfig (serverOf 0 "alice") "ns" clientCfg 0 = (inl aliceConfig, 2).
Proof. by vm_compute. Qed.

(** C6, as stated, fails: the same namespace and client configuration (a
    bearer token, no certificates, a host that parses) give two different
    records on two servers that know the user by different names. *)
Lemma createConfig_depends_on_server :
  ~ (forall (E : GoError) (L : Libraries) (server1 server2 : Server)
            (namespace : string) (clientCfg : restclient.Config),
       (createConfig server1 namespace clientCfg 0).1
       = (createConfig server2 namespace clientCfg 0).1).
Proof.
  intros Hpure.
  specialize (Hpure goError libraries (serverOf 0 "alice") (serverOf 0 "bob")
                "ns" clientCfg).
  apply (f_equal (fun r => match r with
                           | inl config => clientcmdapi.CurrentContext config
                           | inr _ => ""
                           end)) in Hpure.
  vm_compute in Hpure. discriminate Hpure.
Qed.

Lemma createConfig_determined_by_answers_witness :
  createConfig (serverOf 0 "alice") "ns" clientCfg 0
  = createConfig (changedAfter 2 (serverOf 0 "alice") "bob") "ns" clientCfg 0 /\
  getUserPartOfNickname (serverOf 3 "alice") clientCfg 0 = (inl "alice", 4).
Proof.
  split.
  - apply (createConfig_determined_by_answers
             (serverOf 0 "alice") (changedAfter 2 (serverOf 0 "alice") "bob")
             "ns" clientCfg 0).
    rewrite createConfig_alice. simpl. intros k Hk.
    destruct k as [|[|k]]; [reflexivity | reflexivity | lia].
  - apply (proj2 (createConfig_determined_by_answers
                    (serverOf 3 "alice") (serverOf 3 "alice") "ns" clientCfg 0)
             3 {| Name := "alice" |}).
    + simpl. lia.
    + reflexivity.
    + intros k Hk. exists {| Name := "" |}, refused.
      destruct k as [|[|[|k]]]; [by vm_compute | by vm_compute | by vm_compute | lia].
    + reflexivity.
Defined.

Lemma createConfig_maps_connection_witness :
  createConfig (serverOf 0 "alice") "ns" clientCfg 0 = (inl aliceConfig, 2) /\
  (forall nick credentials,
     clientcmdapi.AuthInfos aliceConfig !! nick = Some credentials ->
     clientcmdapi.Token credentials = "sha256~token" /\
     clientcmdapi.ClientCertificateData credentials = [] /\
     clientcmdapi.ClientKeyData credentials = []).
Proof.
  split; [exact createConfig_alice|].
  intros nick credentials Hentry.
  destruct (createConfig_maps_connection (serverOf 0 "alice") "ns" clientCfg 0
              aliceConfig 2 createConfig_alice) as (_ & Hauth & _).
  destruct (Hauth nick credentials Hentry) as (Htoken & _ & _ & Hcert & Hkey).
  split_and!; [exact Htoken | exact Hcert | exact Hkey].
Defined.

(** C8, as stated, fails, on a configuration for which [createConfig]
    succeeds (a bearer token, no certificates, a host that parses): the
    context key ends in the user part alone, the key of the auth-info entry
    is that part followed by "/" and the cluster nickname. *)
Lemma CurrentContext_not_from_user_nickname :
  ~ (forall (E : GoError) (L : Libraries) (server : Server) (namespace : string)
            (clientCfg : restclient.Config) (gets : nat)
            (config : clientcmdapi.Config) (gets' : nat)
            (clusterNick userNick : string),
       createConfig server namespace clientCfg gets = (inl config, gets') ->
       is_Some (clientcmdapi.Clusters config !! clusterNick) ->
       is_Some (clientcmdapi.AuthInfos config !! userNick) ->
       clientcmdapi.CurrentContext config
       = namespace +:+ "/" +:+ clusterNick +:+ "/" +:+ userNick).
Proof.
  intros Hclaim.
  specialize (Hclaim goError libraries (serverOf 0 "alice") "ns" clientCfg 0
                aliceConfig 2 "api-example-com:443" "alice/api-example-com:443"
                createConfig_alice).
  simpl in Hclaim. rewrite !lookup_singleton_eq in Hclaim.
  specialize (Hclaim ltac:(eauto) ltac:(eauto)). discriminate Hclaim.
Qed.

Lemma createConfig_consistent_witness :
  createConfig (serverOf 0 "alice") "ns" clientCfg 0 = (inl aliceConfig, 2) /\
  size (clientcmdapi.Clusters aliceConfig) = 1 /\
  size (clientcmdapi.AuthInfos aliceConfig) = 1 /\
  size (clientcmdapi.Contexts aliceConfig) = 1.
Proof.
  split; [exact createConfig_alice|].
  destruct (createConfig_consistent (serverOf 0 "alice") "ns" clientCfg 0
              aliceConfig 2 createConfig_alice)
    as (clusterNick & userNick & contextNick & part & gets1 &
        _ & _ & _ & _ & _ & _ & _ & Hclusters & Hauths & Hcontexts & _).
  split_and!; [exact Hclusters | exact Hauths | exact Hcontexts].
Defined.

Lemma getClusterNicknameFromConfig_no_dot_witness :
  url_Parse (restclient.Host clientCfg) = inl ("https", "api.example.com") /\
  exists nick,
    getClusterNicknameFromConfig clientCfg = inl nick /\
    nick = everyDotReplaced "api.example.com:443" /\
    strings_Contains nick "." = false /\
    String.length nick = 19.
Proof.
  split; [reflexivity|].
  apply (@getClusterNicknameFromConfig_no_dot goError libraries
           clientCfg ("https", "api.example.com")).
  reflexivity.
Defined.

End OnSample.

End UtilFacts.

(** * Further properties of the kubeconfig builder (oc_copy.go) *)

Module UtilMore.
Import Util UtilFacts.

Lemma everyDotReplaced_id (s : string) :
  strings_Contains s "." = false -> everyDotReplaced s = s.
Proof.
  induction s as [|c s IH]; [done|].
  cbn [strings_Contains everyDotReplaced]. rewrite prefix_dot.
  intros [Hc Hs]%orb_false_elim. by rewrite Hc, IH.
Qed.

Section Polling.
Context `{Libraries}.

Lemma pollCondition_final server s u err :
  server s.2 = (u, err) -> final err ->
  pollCondition server s = ((Some u, Datatypes.S s.2), (true, err)).
Proof.
  intros Hget Hfinal. unfold pollCondition. rewrite Hget.
  destruct err as [e|]; [|done]. by rewrite (Hfinal e).
Qed.

(** After [down] refused lookups, the next answer ends the poll. *)
Lemma poll_settled server retries down userInfo gets u err :
  down <= retries ->
  (forall k, k < down -> refusedAt server (gets + k)) ->
  server (gets + down) = (u, err) -> final err ->
  PollUntilContextTimeout retries (pollCondition server) (userInfo, gets)
  = ((Some u, gets + down + 1), err).
Proof.
  revert retries userInfo gets.
  induction down as [|down IH];
    intros retries userInfo gets Hle Hrefused Hanswer Hfinal.
  - rewrite Nat.add_0_r in Hanswer.
    rewrite PollUntilContextTimeout_unfold,
      (pollCondition_final _ _ u err) by done.
    rewrite orb_true_r. simpl. do 2 f_equal. lia.
  - destruct retries as [|retries]; [lia|].
    destruct (Hrefused 0) as (u0 & e0 & Hfirst & Hmsg); [lia|].
    rewrite Nat.add_0_r in Hfirst.
    rewrite PollUntilContextTimeout_unfold,
      (pollCondition_refused _ _ u0 e0) by done.
    simpl. rewrite (IH retries (Some u0) (Datatypes.S gets)).
    + do 2 f_equal. lia.
    + lia.
    + intros k Hk. replace (Datatypes.S gets + k) with (gets + Datatypes.S k) by lia.
      apply Hrefused. lia.
    + by replace (Datatypes.S gets + down) with (gets + Datatypes.S down) by lia.
    + done.
Qed.

(** When every attempt is refused the poll gives up with the deadline
    error, after the first attempt and all the retries. *)
Lemma poll_expired server retries userInfo gets :
  (forall k, k <= retries -> refusedAt server (gets + k)) ->
  exists u,
    PollUntilContextTimeout retries (pollCondition server) (userInfo, gets)
    = ((Some u, gets + retries + 1), Some context_DeadlineExceeded).
Proof.
  revert userInfo gets.
  induction retries as [|retries IH]; intros userInfo gets Hrefused;
    destruct (Hrefused 0) as (u0 & e0 & Hfirst & Hmsg); try lia;
    rewrite Nat.add_0_r in Hfirst;
    rewrite PollUntilContextTimeout_unfold,
      (pollCondition_refused _ _ u0 e0) by done; simpl.
  - exists u0. do 2 f_equal. lia.
  - destruct (IH (Some u0) (Datatypes.S gets)) as [u Hu].
    + intros k Hk. replace (Datatypes.S gets + k) with (gets + Datatypes.S k) by lia.
      apply Hrefused. lia.
    + exists u. rewrite Hu. do 2 f_equal. lia.
Qed.

Lemma pollCondition_userInfo server s :
  is_Some (pollCondition server s).1.1.
Proof.
  unfold pollCondition. destruct (server s.2) as [u [e|]]; [|by eexists].
  destruct (strings_Contains _ _); by eexists.
Qed.

(** The poll always leaves the captured [userInfo] assigned. *)
Lemma poll_userInfo server retries s :
  is_Some (PollUntilContextTimeout retries (pollCondition server) s).1.1.
Proof.
  revert s. induction retries as [|k IH]; intros s;
    rewrite PollUntilContextTimeout_unfold;
    pose proof (pollCondition_userInfo server s) as Hset;
    destruct (pollCondition server s) as [s1 [ok err]]; simpl in Hset;
    destruct (bool_decide (is_Some err) || ok); simpl; try done.
Qed.

Lemma poll_gets_le server retries s :
  (PollUntilContextTimeout retries (pollCondition server) s).1.2
  <= s.2 + retries + 1.
Proof.
  revert s. induction retries as [|k IH]; intros s;
    rewrite PollUntilContextTimeout_unfold;
    pose proof (pollCondition_gets server s) as Hgets;
    destruct (pollCondition server s) as [s1 [ok err]]; simpl in Hgets;
    destruct (bool_decide (is_Some err) || ok); simpl; try lia.
  specialize (IH s1). lia.
Qed.

End Polling.

(** A lookup answered at once, without error, gives the user's name. *)
Lemma getUserPartOfNickname_answered `{Libraries}
    (server : Server) (clientCfg : restclient.Config) (gets : nat) (u : User) :
  userv1typedclient_NewForConfig clientCfg = None ->
  server gets = (u, None) ->
  getUserPartOfNickname server clientCfg gets = (inl (Name u), gets + 1).
Proof.
  intros Hclient Hanswer. unfold getUserPartOfNickname.
  rewrite Hclient, (poll_settled server pollRetries 0 None gets u None);
    [|lia|intros; lia|by rewrite Nat.add_0_r|by intros ? [=]].
  unfold onError. simpl. do 2 f_equal. lia.
Qed.

Lemma getUserPartOfNickname_gets_bounds `{Libraries}
    (server : Server) (clientCfg : restclient.Config) (gets : nat) :
  gets <= (getUserPartOfNickname server clientCfg gets).2
       <= gets + pollRetries + 1 /\
  (forall part, (getUserPartOfNickname server clientCfg gets).1 = inl part ->
                gets < (getUserPartOfNickname server clientCfg gets).2).
Proof.
  pose proof (getUserPartOfNickname_gets server clientCfg gets) as Hgets.
  unfold getUserPartOfNickname in *.
  destruct (userv1typedclient_NewForConfig clientCfg) as [err|].
  - simpl. split; [lia | done].
  - rewrite Hgets.
    pose proof (poll_gets_lt server pollRetries (None, gets)).
    pose proof (poll_gets_le server pollRetries (None, gets)).
    simpl in *. split; [lia | intros; lia].
Qed.

(** X1. [getUserPartOfNickname] issues no lookup when the user client
    cannot be built, and returns that error; otherwise it issues at least
    one lookup and at most one more than the poll's retries. *)
Theorem getUserPartOfNickname_lookups_bounded `{Libraries}
    (server : Server) (clientCfg : restclient.Config) (gets : nat) :
  match userv1typedclient_NewForConfig clientCfg with
  | Some err => getUserPartOfNickname server clientCfg gets = (inr (Err err), gets)
  | None =>
      gets < (getUserPartOfNickname server clientCfg gets).2
      <= gets + pollRetries + 1
  end.
Proof.
  pose proof (getUserPartOfNickname_gets server clientCfg gets) as Hgets.
  unfold getUserPartOfNickname in *.
  destruct (userv1typedclient_NewForConfig clientCfg) as [err|]; [done|].
  rewrite Hgets.
  pose proof (poll_gets_lt server pollRetries (None, gets)).
  pose proof (poll_gets_le server pollRetries (None, gets)).
  simpl in *. lia.
Qed.

(** X2. [createConfig] issues at most two polls' worth of lookups, and a
    successful [createConfig] has issued at least two: one for the user
    nickname and one for the context nickname. *)
Theorem createConfig_lookups_bounded `{Libraries}
    (server : Server) (namespace : string) (clientCfg : restclient.Config)
    (gets : nat) :
  gets <= (createConfig server namespace clientCfg gets).2
       <= gets + 2 * (pollRetries + 1) /\
  (forall config,
     (createConfig server namespace clientCfg gets).1 = inl config ->
     gets + 2 <= (createConfig server namespace clientCfg gets).2).
Proof.
  assert (Hpart : forall g,
            g <= (getUserPartOfNickname server clientCfg g).2 <= g + pollRetries + 1 /\
            (forall part, (getUserPartOfNickname server clientCfg g).1 = inl part ->
                          g < (getUserPartOfNickname server clientCfg g).2)).
  { intros g. apply getUserPartOfNickname_gets_bounds. }
  unfold createConfig.
  destruct (getClusterNicknameFromConfig clientCfg) as [clusterNick|];
    [|simpl; split; [lia | done]].
  pose proof (getUserNicknameFromConfig_gets server clientCfg gets) as Hg1.
  destruct (Hpart gets) as [Hb1 Hs1]. unfold getUserNicknameFromConfig in *.
  destruct (getUserPartOfNickname server clientCfg gets) as [[part1|] gets1];
    [|simpl in *; split; [lia | done]].
  destruct (getClusterNicknameFromConfig clientCfg) as [nick|];
    [|simpl in *; split; [lia | done]].
  specialize (Hs1 part1 eq_refl). simpl in Hb1, Hs1, Hg1.
  pose proof (getContextNicknameFromConfig_gets server namespace clientCfg gets1) as Hg2.
  destruct (Hpart gets1) as [Hb2 Hs2].
  unfold getContextNicknameFromConfig in *.
  destruct (getUserPartOfNickname server clientCfg gets1) as [[part2|] gets2];
    [|simpl in *; split; [lia | done]].
  specialize (Hs2 part2 eq_refl).
  destruct (getClusterNicknameFromConfig clientCfg) as [nick'|];
    simpl in *; (split; [lia |]); [intros; lia | done].
Qed.

(** X3. When the server refuses the first lookup and every retry, and the
    deadline error counts neither as "not found" nor as "forbidden",
    [getUserPartOfNickname] fails with [context.DeadlineExceeded] after one
    lookup more than the poll's retries. *)
Theorem getUserPartOfNickname_deadline `{Libraries}
    (server : Server) (clientCfg : restclient.Config) (gets : nat) :
  userv1typedclient_NewForConfig clientCfg = None ->
  (forall k, k <= pollRetries -> refusedAt server (gets + k)) ->
  kerrors_IsNotFound context_DeadlineExceeded = false ->
  kerrors_IsForbidden context_DeadlineExceeded = false ->
  getUserPartOfNickname server clientCfg gets
  = (inr (Err context_DeadlineExceeded), gets + pollRetries + 1).
Proof.
  intros Hclient Hrefused Hnf Hfb. unfold getUserPartOfNickname.
  destruct (poll_expired server pollRetries None gets Hrefused) as [u Hpoll].
  rewrite Hclient, Hpoll. unfold onError. simpl. by rewrite Hnf, Hfb.
Qed.

(** X4. When the lookup is answered, after any refused attempts within the
    poll's retries, with an error that counts as "not found" or "forbidden",
    [getUserPartOfNickname] succeeds with a best guess: the bearer token if
    there is one, else the user name of the configuration if there is one,
    else the name in the object the lookup returned. *)
Theorem getUserPartOfNickname_best_guess `{Libraries}
    (server : Server) (clientCfg : restclient.Config) (gets down : nat)
    (u : User) (e : error) :
  userv1typedclient_NewForConfig clientCfg = None ->
  down <= pollRetries ->
  (forall k, k < down -> refusedAt server (gets + k)) ->
  server (gets + down) = (u, Some e) ->
  strings_Contains (error_Error e) "connect: connection refused" = false ->
  kerrors_IsNotFound e || kerrors_IsForbidden e = true ->
  getUserPartOfNickname server clientCfg gets
  = (inl match restclient.BearerToken clientCfg, restclient.Username clientCfg with
         | String _ _, _ => restclient.BearerToken clientCfg
         | EmptyString, String _ _ => restclient.Username clientCfg
         | EmptyString, EmptyString => Name u
         end,
     gets + down + 1).
Proof.
  intros Hclient Hdown Hrefused Hanswer Hmsg Hkind. unfold getUserPartOfNickname.
  rewrite Hclient, (poll_settled server pollRetries down None gets u (Some e));
    [|done|done|done|by intros ? [= <-]].
  unfold onError. simpl. rewrite Hkind.
  by destruct (restclient.BearerToken clientCfg), (restclient.Username clientCfg).
Qed.

(** X5. When the lookup is answered, after any refused attempts within the
    poll's retries, with an error that is neither a refused connection nor
    "not found" nor "forbidden", [getUserPartOfNickname] returns that very
    error and does not retry. *)
Theorem getUserPartOfNickname_error `{Libraries}
    (server : Server) (clientCfg : restclient.Config) (gets down : nat)
    (u : User) (e : error) :
  userv1typedclient_NewForConfig clientCfg = None ->
  down <= pollRetries ->
  (forall k, k < down -> refusedAt server (gets + k)) ->
  server (gets + down) = (u, Some e) ->
  strings_Contains (error_Error e) "connect: connection refused" = false ->
  kerrors_IsNotFound e = false ->
  kerrors_IsForbidden e = false ->
  getUserPartOfNickname server clientCfg gets = (inr (Err e), gets + down + 1).
Proof.
  intros Hclient Hdown Hrefused Hanswer Hmsg Hnf Hfb. unfold getUserPartOfNickname.
  rewrite Hclient, (poll_settled server pollRetries down None gets u (Some e));
    [|done|done|done|by intros ? [= <-]].
  unfold onError. simpl. by rewrite Hnf, Hfb.
Qed.

(** X6. No function of the file ends in a nil pointer dereference: the poll
    runs its condition at least once, so [userInfo] is assigned before its
    name is read or written. *)
Theorem no_NilDereference `{Libraries}
    (server : Server) (namespace : string) (clientCfg : restclient.Config)
    (gets : nat) :
  (getUserPartOfNickname server clientCfg gets).1 <> inr NilDereference /\
  (getUserNicknameFromConfig server clientCfg gets).1 <> inr NilDereference /\
  (getContextNicknameFromConfig server namespace clientCfg gets).1
  <> inr NilDereference /\
  (createConfig server namespace clientCfg gets).1 <> inr NilDereference /\
  getClusterNicknameFromConfig clientCfg <> inr NilDereference.
Proof.
  assert (Hcluster : getClusterNicknameFromConfig clientCfg <> inr NilDereference).
  { unfold getClusterNicknameFromConfig. by destruct (url_Parse _). }
  assert (Hpart : forall g,
            (getUserPartOfNickname server clientCfg g).1 <> inr NilDereference).
  { intros g. unfold getUserPartOfNickname.
    destruct (userv1typedclient_NewForConfig clientCfg); [done|].
    pose proof (poll_userInfo server pollRetries (None, g)) as [u Hu].
    destruct (PollUntilContextTimeout _ _ _) as [[userInfo gets1] err].
    simpl in Hu. subst userInfo. by repeat case_match. }
  assert (Huser : forall g,
            (getUserNicknameFromConfig server clientCfg g).1 <> inr NilDereference).
  { intros g. unfold getUserNicknameFromConfig. specialize (Hpart g).
    destruct (getUserPartOfNickname server clientCfg g) as [[part|f] gets1];
      [|done].
    by destruct (getClusterNicknameFromConfig clientCfg). }
  assert (Hcontext : forall g,
            (getContextNicknameFromConfig server namespace clientCfg g).1
            <> inr NilDereference).
  { intros g. unfold getContextNicknameFromConfig. specialize (Hpart g).
    destruct (getUserPartOfNickname server clientCfg g) as [[part|f] gets1];
      [|done].
    by destruct (getClusterNicknameFromConfig clientCfg). }
  split_and!; [done | done | done | | done].
  unfold createConfig.
  destruct (getClusterNicknameFromConfig clientCfg) as [nick|f];
    [|by intros [= ->]].
  specialize (Huser gets).
  destruct (getUserNicknameFromConfig server clientCfg gets) as [[userNick|f] gets1];
    [|by intros [= ->]].
  specialize (Hcontext gets1).
  destruct (getContextNicknameFromConfig server namespace clientCfg gets1)
    as [[contextNick|f] gets2]; [done | by intros [= ->]].
Qed.

(** X7. When the host of the configuration does not parse as a URL,
    [createConfig] returns the parse error without any lookup of the user,
    and neither the user nickname nor the context nickname can be built. *)
Theorem createConfig_unparsable_host `{Libraries}
    (server : Server) (namespace : string) (clientCfg : restclient.Config)
    (gets : nat) (err : error) :
  url_Parse (restclient.Host clientCfg) = inr err ->
  createConfig server namespace clientCfg gets = (inr (Err err), gets) /\
  (forall g, exists f, (getUserNicknameFromConfig server clientCfg g).1 = inr f) /\
  (forall g, exists f,
     (getContextNicknameFromConfig server namespace clientCfg g).1 = inr f).
Proof.
  intros Hparse.
  assert (Hcluster : getClusterNicknameFromConfig clientCfg = inr (Err err)).
  { unfold getClusterNicknameFromConfig. by rewrite Hparse. }
  unfold createConfig, getUserNicknameFromConfig, getContextNicknameFromConfig.
  rewrite Hcluster. split_and!; [done | |]; intros g;
    destruct (getUserPartOfNickname server clientCfg g) as [[part|f] gets1];
    simpl; eauto.
Qed.

(** X8. When the host parses, the user client can be built and the server
    answers the two lookups without error, [createConfig] succeeds after
    exactly two lookups: the cluster is stored under the nickname of the
    host, the credentials under first user name, "/", nickname, and the one
    context, which is the current one, under namespace, "/", nickname, "/",
    second user name. *)
Theorem createConfig_answered `{Libraries}
    (server : Server) (namespace : string) (clientCfg : restclient.Config)
    (gets : nat) (u : url_URL) (first second : User) :
  url_Parse (restclient.Host clientCfg) = inl u ->
  userv1typedclient_NewForConfig clientCfg = None ->
  server gets = (first, None) ->
  server (gets + 1) = (second, None) ->
  let nick := everyDotReplaced (netutil_CanonicalAddr u) in
  let userNick := Name first +:+ "/" +:+ nick in
  let contextNick := namespace +:+ "/" +:+ nick +:+ "/" +:+ Name second in
  createConfig server namespace clientCfg gets
  = (inl {| clientcmdapi.Clusters := {[ nick := clusterOf clientCfg ]};
            clientcmdapi.AuthInfos := {[ userNick := credentialsOf clientCfg ]};
            clientcmdapi.Contexts :=
              {[ contextNick :=
                   {| clientcmdapi.Context_Cluster := nick;
                      clientcmdapi.Context_AuthInfo := userNick;
                      clientcmdapi.Namespace := namespace |} ]};
            clientcmdapi.CurrentContext := contextNick |},
     gets + 2).
Proof.
  intros Hparse Hclient Hfirst Hsecond nick userNick contextNick.
  assert (Hcluster : getClusterNicknameFromConfig clientCfg = inl nick).
  { unfold getClusterNicknameFromConfig. by rewrite Hparse, strings_Replace_dot. }
  pose proof (getUserPartOfNickname_answered server clientCfg gets first
                Hclient Hfirst) as Hpart1.
  pose proof (getUserPartOfNickname_answered server clientCfg (gets + 1) second
                Hclient Hsecond) as Hpart2.
  unfold createConfig, getUserNicknameFromConfig, getContextNicknameFromConfig.
  rewrite Hcluster, Hpart1. simpl. rewrite Hpart2. simpl.
  rewrite !insert_empty. unfold contextOf. subst userNick contextNick.
  f_equal. lia.
Qed.

(** X9. When the canonical host:port of the configuration's host has no
    '.', the cluster nickname is that host:port unchanged. *)
Theorem getClusterNicknameFromConfig_without_dot `{Libraries}
    (clientCfg : restclient.Config) (u : url_URL) :
  url_Parse (restclient.Host clientCfg) = inl u ->
  strings_Contains (netutil_CanonicalAddr u) "." = false ->
  getClusterNicknameFromConfig clientCfg = inl (netutil_CanonicalAddr u).
Proof.
  intros Hparse Hdots. unfold getClusterNicknameFromConfig.
  by rewrite Hparse, strings_Replace_dot, everyDotReplaced_id.
Qed.

(** X10. From the same point of the server's answers, the user nickname and
    the context nickname issue the same lookups and fail alike; when they
    succeed they are built from the same user part and cluster nickname, the
    one as part, "/", nickname and the other as namespace, "/", nickname,
    "/", part. *)
Theorem nicknames_agree `{Libraries}
    (server : Server) (namespace : string) (clientCfg : restclient.Config)
    (gets : nat) :
  (getUserNicknameFromConfig server clientCfg gets).2
  = (getContextNicknameFromConfig server namespace clientCfg gets).2 /\
  (forall f,
     (getUserNicknameFromConfig server clientCfg gets).1 = inr f <->
     (getContextNicknameFromConfig server namespace clientCfg gets).1 = inr f) /\
  (forall userNick,
     (getUserNicknameFromConfig server clientCfg gets).1 = inl userNick ->
     exists part nick,
       (getUserPartOfNickname server clientCfg gets).1 = inl part /\
       getClusterNicknameFromConfig clientCfg = inl nick /\
       userNick = part +:+ "/" +:+ nick /\
       (getContextNicknameFromConfig server namespace clientCfg gets).1
       = inl (namespace +:+ "/" +:+ nick +:+ "/" +:+ part)).
Proof.
  unfold getUserNicknameFromConfig, getContextNicknameFromConfig.
  destruct (getUserPartOfNickname server clientCfg gets) as [[part|f0] gets1];
    [|by split_and!].
  destruct (getClusterNicknameFromConfig clientCfg) as [nick|f0]; simpl;
    [|by split_and!].
  split_and!; [done | done |].
  intros userNick [= <-]. by exists part, nick.
Qed.

Section OnSample.
Import Sample.

Lemma getUserPartOfNickname_deadline_witness :
  getUserPartOfNickname (serverOf 100 "alice") clientCfg 0
  = (inr (Err (mkError "context deadline exceeded" false false)), 61).
Proof.
  assert (Hrefused : forall k, k <= pollRetries ->
                       refusedAt (serverOf 100 "alice") (0 + k)).
  { intros k Hk. exists {| Name := "" |}, refused. split; [|reflexivity].
    unfold serverOf. simpl in Hk.
    destruct (Nat.ltb_spec (0 + k) 100) as [_ | Hge]; [reflexivity | lia]. }
  exact (getUserPartOfNickname_deadline (serverOf 100 "alice") clientCfg 0
           eq_refl Hrefused eq_refl eq_refl).
Defined.

Lemma getUserPartOfNickname_best_guess_witness :
  getUserPartOfNickname (kubeServer 2) clientCfg 0 = (inl "sha256~token", 3) /\
  getUserPartOfNickname (kubeServer 0) localCfg 5 = (inl "developer", 6).
Proof.
  split.
  - apply (getUserPartOfNickname_best_guess (kubeServer 2) clientCfg 0 2
             {| Name := "" |} forbiddenError);
      [reflexivity | simpl; lia | | reflexivity | reflexivity | reflexivity].
    intros k Hk. exists {| Name := "" |}, refused.
    destruct k as [|[|k]]; [by vm_compute | by vm_compute | lia].
  - apply (getUserPartOfNickname_best_guess (kubeServer 0) localCfg 5 0
             {| Name := "" |} forbiddenError);
      [reflexivity | simpl; lia | | reflexivity | reflexivity | reflexivity].
    intros k Hk. lia.
Defined.

Lemma getUserPartOfNickname_error_witness :
  getUserPartOfNickname brokenServer clientCfg 0 = (inr (Err internalError), 1).
Proof.
  apply (getUserPartOfNickname_error brokenServer clientCfg 0 0
           {| Name := "" |} internalError);
    [reflexivity | simpl; lia | | reflexivity | reflexivity | reflexivity | reflexivity].
  intros k Hk. lia.
Defined.

Lemma createConfig_unparsable_host_witness :
  createConfig (serverOf 0 "alice") "ns" badHostCfg 0
  = (inr (Err (parseError "10.0.0.1:6443"
                 "first path segment in URL cannot contain colon")), 0).
Proof.
  apply (createConfig_unparsable_host (serverOf 0 "alice") "ns" badHostCfg 0).
  reflexivity.
Defined.

Lemma createConfig_answered_witness :
  createConfig renamingServer "ns" localCfg 0
  = (inl {| clientcmdapi.Clusters := {[ "localhost:6443" := clusterOf localCfg ]};
            clientcmdapi.AuthInfos :=
              {[ "alice/localhost:6443" := credentialsOf localCfg ]};
            clientcmdapi.Contexts :=
              {[ "ns/localhost:6443/bob" :=
                   {| clientcmdapi.Context_Cluster := "localhost:6443";
                      clientcmdapi.Context_AuthInfo := "alice/localhost:6443";
                      clientcmdapi.Namespace := "ns" |} ]};
            clientcmdapi.CurrentContext := "ns/localhost:6443/bob" |},
     2).
Proof.
  apply (@createConfig_answered goError libraries renamingServer "ns" localCfg 0
           ("https", "localhost:6443") {| Name := "alice" |} {| Name := "bob" |});
    reflexivity.
Defined.

Lemma getClusterNicknameFromConfig_without_dot_witness :
  getClusterNicknameFromConfig localCfg = inl "localhost:6443".
Proof.
  apply (@getClusterNicknameFromConfig_without_dot goError libraries localCfg
           ("https", "localhost:6443")); reflexivity.
Defined.

End OnSample.

End UtilMore.

(** * Further properties of the cluster-info serializer (invariant.go) *)

Module ClusterInfoSerializerMore.
Import ClusterInfoSerializer.

Lemma strings_Contains_app_r (a b sub : string) :
  strings_Contains b sub = true -> strings_Contains (a +:+ b) sub = true.
Proof.
  intros Hb. induction a as [|c a IH]; [done|].
  change (String c a +:+ b) with (String c (a +:+ b)).
  destruct sub; [done|]. simpl. simpl in IH. rewrite IH. apply orb_true_r.
Qed.

Section Lifecycle.
Context `{Collaborators}.

Lemma invoke_adminRESTConfig (call : Call) (w : clusterInfoSerializer)
    (world : World) :
  adminRESTConfig (invoke call (w, world)).1 =
  match call with
  | CallStartCollection _ cfg _ => cfg
  | _ => adminRESTConfig w
  end.
Proof.
  destruct call; try done. simpl.
  unfold WriteContentToStorage. by destruct (writeClusterData _ _ _).
Qed.

Lemma invokeAll_adminRESTConfig (calls : list Call) (w : clusterInfoSerializer)
    (world : World) :
  adminRESTConfig (invokeAll calls (w, world)).1
  = default (adminRESTConfig w) (lastStarted calls).
Proof.
  revert w world. induction calls as [|call rest IH]; intros w world; [done|].
  cbn [invokeAll lastStarted].
  pose proof (invoke_adminRESTConfig call w world) as Hcall.
  destruct (invoke call (w, world)) as [w1 world1]. rewrite IH.
  destruct (lastStarted rest) as [cfg|]; [done|].
  simpl in *. rewrite Hcall. by destruct call.
Qed.

End Lifecycle.

(** X11. Whatever methods of the observer have been invoked, in whatever
    order, the cluster data that [WriteContentToStorage] then serializes is
    collected with the configuration given to the last [StartCollection],
    or with the observer's initial one (nil for a new observer) when there
    was none. *)
Theorem WriteContentToStorage_uses_last_StartCollection `{Collaborators}
    (calls : list Call) (w : clusterInfoSerializer) (world : World)
    (ctx : context_Context) (storageDir timeSuffix : string)
    (finalIntervals : list Interval) (finalResourceState : ResourcesMap) :
  let s := invokeAll calls (w, world) in
  let cfg := default (adminRESTConfig w) (lastStarted calls) in
  adminRESTConfig s.1 = cfg /\
  (WriteContentToStorage s.1 ctx storageDir timeSuffix
     finalIntervals finalResourceState s.2).2
  = writeClusterData
      (filepath_Join storageDir ("cluster-data" +:+ timeSuffix +:+ ".json"))
      (monitor_CollectClusterData s.2 cfg
         (monitor_WasMasterNodeUpdated finalIntervals))
      s.2.
Proof.
  intros s cfg. subst s cfg.
  pose proof (invokeAll_adminRESTConfig calls w world) as Hcfg.
  split; [done|].
  unfold WriteContentToStorage, collectClusterData. simpl. by rewrite Hcfg.
Qed.


Section OnSample.
Import Sample.

Local Abbreviation start := (@CallStartCollection goError collaborators).
Local Abbreviation write := (@CallWriteContentToStorage goError collaborators).


End OnSample.

End ClusterInfoSerializerMore.

(** * Further properties of the interfaces (types.go) *)

Module InvariantsMore.
Import Invariants.

(** Membership in a list literal of Go types, and its refutation. *)
Ltac in_types :=
  repeat first [apply list_elem_of_here | apply list_elem_of_further].
Ltac not_in_types H :=
  repeat (apply elem_of_cons in H as [H | H]; [discriminate H|]);
  by apply elem_of_nil in H.

(** X14. For every method of [InvariantTest], [InvariantRegistry] has a
    method of the same name with the same parameters, whose results are
    those of the observer's method with JUnit test cases among them: the
    two signatures are the same exactly when the observer's method returns
    JUnit test cases already. *)
Theorem InvariantRegistry_mirrors_InvariantTest (name : string) (sig : MethodSig) :
  method InvariantTest name = Some sig ->
  exists sig',
    method InvariantRegistry_phases name = Some sig' /\
    params sig' = params sig /\
    TJUnitTestCases ∈ results sig' /\
    withoutJUnits (results sig') = withoutJUnits (results sig) /\
    (sig' = sig <-> TJUnitTestCases ∈ results sig).
Proof.
  intros Hsig. unfold method in Hsig.
  apply elem_of_list_to_map_2 in Hsig.
  repeat (apply elem_of_cons in Hsig as [Heq | Hsig];
          [injection Heq as -> ->; eexists;
           split; [by vm_compute|];
           split_and!; [done | in_types | by vm_compute |];
           split; intros Hx;
           first [done | discriminate Hx | by in_types | not_in_types Hx] |]).
  by apply elem_of_nil in Hsig.
Qed.

Lemma InvariantRegistry_mirrors_InvariantTest_witness :
  exists sig',
    method InvariantRegistry_phases "Cleanup" = Some sig' /\
    params sig' = [TContext] /\
    TJUnitTestCases ∈ results sig' /\
    withoutJUnits (results sig') = [TError] /\
    (sig' = mkSig [TContext] [TError] <-> TJUnitTestCases ∈ [TError]).
Proof.
  apply (InvariantRegistry_mirrors_InvariantTest "Cleanup" (mkSig [TContext] [TError])).
  reflexivity.
Defined.

End InvariantsMore.
